(** * TestbedSampleContract: a shallow embedding and its properties

    The program is the SmartC contract [test-contract.smart.c]: a loop over
    the transactions of the current block that dispatches on the first long
    of the message to one of four handlers.

    The contract's own code (globals, [main], [constructor], the handlers) is
    translated function by function.  The built-in functions it calls
    ([getNextTx], [getSender], [sendAmount], ...) belong to the host; they
    are modelled from the written specification (Ledger, Key-Value Store,
    Transaction Queue) and every such definition says so. *)

From stdpp Require Import gmap list.
From Stdlib Require Import ZArith Lia.

Local Open Scope Z_scope.

(** ** 64-bit signed [long] arithmetic *)

Module Long.

Definition min_long : Z := - 2 ^ 63.
Definition max_long : Z := 2 ^ 63 - 1.

Definition in_range (z : Z) : Prop := min_long <= z <= max_long.

(** Two's complement wrap-around of a mathematical integer. *)
Definition wrap (z : Z) : Z := (z + 2 ^ 63) mod 2 ^ 64 - 2 ^ 63.

(** [a * b] on longs. *)
Definition mul (a b : Z) : Z := wrap (a * b).

(** [a / b] on longs: the quotient is truncated toward zero.  The program
    only divides by the constant 100. *)
Definition div (a b : Z) : Z := wrap (a ÷ b).

End Long.

(** ** Magic codes for methods (lines 10-16) *)

Definition FORWARD_PERCENTAGE : Z := 1.
Definition UPDATE_PERCENTAGE : Z := 2.
Definition SET_MAP_VALUE : Z := 3.
Definition PULL_FUNDS : Z := 4.

Definition MAP_KEY_EXAMPLE : Z := 1.

(** ** Contract memory (lines 18-32) *)

(** [struct TXINFO]; [message] is the array [long message[4]]. *)
Record TXINFO := mkTXINFO {
  txId : Z;
  sender : Z;
  message : list Z
}.

(** ** The host *)

(** Modelled from the spec: a transaction of the Transaction Queue (id,
    sender account id, attached native amount, message payload). *)
Record Transaction := mkTransaction {
  tx_id : Z;
  tx_sender : Z;
  tx_amount : Z;
  tx_message : list Z
}.

(** Modelled from the spec: the two true faults of the error taxonomy. *)
Inductive Fault := InsufficientFunds | Overflow.

(** Modelled from the spec: the host state the contract runs against: the
    deploying account, the contract's own account, the Ledger (balances per
    account and asset id, asset id 0 being the native asset), the Key-Value
    Store, and the Transaction Queue of the block with its read cursor. *)
Record Host := mkHost {
  creator : Z;
  self : Z;
  ledger : gmap (Z * Z) Z;
  kvstore : gmap (Z * Z) Z;
  queue : list Transaction;
  cursor : nat
}.

(** The whole machine: the contract's globals and the host. *)
Record World := mkWorld {
  percentage : Z;
  text : Z;
  currentTx : TXINFO;
  host : Host
}.

Definition set_percentage (p : Z) (w : World) : World :=
  mkWorld p (text w) (currentTx w) (host w).

Definition set_currentTx (c : TXINFO) (w : World) : World :=
  mkWorld (percentage w) (text w) c (host w).

Definition set_txId (i : Z) (w : World) : World :=
  set_currentTx (mkTXINFO i (sender (currentTx w)) (message (currentTx w))) w.

Definition set_sender (s : Z) (w : World) : World :=
  set_currentTx (mkTXINFO (txId (currentTx w)) s (message (currentTx w))) w.

Definition set_message (m : list Z) (w : World) : World :=
  set_currentTx (mkTXINFO (txId (currentTx w)) (sender (currentTx w)) m) w.

Definition set_host (h : Host) (w : World) : World :=
  mkWorld (percentage w) (text w) (currentTx w) h.

Definition set_ledger (l : gmap (Z * Z) Z) (h : Host) : Host :=
  mkHost (creator h) (self h) l (kvstore h) (queue h) (cursor h).

Definition set_kvstore (m : gmap (Z * Z) Z) (h : Host) : Host :=
  mkHost (creator h) (self h) (ledger h) m (queue h) (cursor h).

Definition set_cursor (c : nat) (h : Host) : Host :=
  mkHost (creator h) (self h) (ledger h) (kvstore h) (queue h) c.

(** [a[i]] for an array of longs. *)
Definition slot (i : nat) (a : list Z) : Z := default 0 (a !! i).

(** Modelled from the spec: the four longs of page [offset] of a message
    payload, absent longs reading as 0. *)
Definition page (offset : nat) (m : list Z) : list Z :=
  [slot (4 * offset) m; slot (4 * offset + 1) m;
   slot (4 * offset + 2) m; slot (4 * offset + 3) m].

(** ** Ledger *)

Module Ledger.

(** Modelled from the spec: [balanceOf(account, assetId)], 0 for unknown
    accounts and assets. *)
Definition balanceOf (l : gmap (Z * Z) Z) (account assetId : Z) : Z :=
  default 0 (l !! (account, assetId)).

(** Modelled from the spec: [debit] fails with [InsufficientFunds] if
    [balanceOf < amount], otherwise decreases the balance. *)
Definition debit (l : gmap (Z * Z) Z) (account assetId amount : Z)
  : Fault + gmap (Z * Z) Z :=
  if balanceOf l account assetId <? amount then inl InsufficientFunds
  else inr (<[(account, assetId) := balanceOf l account assetId - amount]> l).

(** Modelled from the spec: [credit] increases the balance and fails with
    [Overflow] if the result would leave the integer domain. *)
Definition credit (l : gmap (Z * Z) Z) (account assetId amount : Z)
  : Fault + gmap (Z * Z) Z :=
  let r := balanceOf l account assetId + amount in
  if (r <? Long.min_long) || (Long.max_long <? r) then inl Overflow
  else inr (<[(account, assetId) := r]> l).

(** Modelled from the spec: [transfer] is [debit] then [credit]; when
    either fails the ledger passed in is the ledger that remains. *)
Definition transfer (l : gmap (Z * Z) Z) (from to assetId amount : Z)
  : Fault + gmap (Z * Z) Z :=
  match debit l from assetId amount with
  | inl f => inl f
  | inr l1 => credit l1 to assetId amount
  end.

End Ledger.

(** ** Key-Value Store *)

Module KVStore.

(** Modelled from the spec: [get(primaryKey, secondaryKey)], 0 if
    absent. *)
Definition get (m : gmap (Z * Z) Z) (primaryKey secondaryKey : Z) : Z :=
  default 0 (m !! (primaryKey, secondaryKey)).

(** Modelled from the spec: [set], an unconditional overwrite. *)
Definition set (m : gmap (Z * Z) Z) (primaryKey secondaryKey value : Z)
  : gmap (Z * Z) Z :=
  <[(primaryKey, secondaryKey) := value]> m.

End KVStore.

(** ** Transaction Queue *)

Module Queue.

(** Modelled from the spec: [nextTransaction()], the transaction under the
    read cursor, which then advances; [None] once exhausted. *)
Definition nextTransaction (h : Host) : option Transaction * Host :=
  match queue h !! cursor h with
  | Some t => (Some t, set_cursor (S (cursor h)) h)
  | None => (None, h)
  end.

(** Modelled from the spec: the transaction of the block that carries a
    given id. *)
Definition lookup (h : Host) (id : Z) : option Transaction :=
  find (fun t => tx_id t =? id) (queue h).

(** The transactions not yet handed out. *)
Definition pending (h : Host) : list Transaction :=
  drop (cursor h) (queue h).

End Queue.

(** ** The state and error monad of contract code *)

Inductive Res (A : Type) : Type :=
| Done (a : A) (w : World)
| Abort (f : Fault) (w : World).

Arguments Done {A} a w.
Arguments Abort {A} f w.

Definition M (A : Type) : Type := World -> Res A.

Definition ret {A} (a : A) : M A := fun w => Done a w.

Definition bind {A B} (m : M A) (k : A -> M B) : M B :=
  fun w => match m w with
           | Done a w' => k a w'
           | Abort f w' => Abort f w'
           end.

Definition reads {A} (f : World -> A) : M A := fun w => Done (f w) w.

Definition update (f : World -> World) : M unit := fun w => Done tt (f w).

#[global] Instance M_ret : MRet M := @ret.
#[global] Instance M_bind : MBind M := fun A B k m => bind m k.

(** ** Built-in functions of the host (External Interfaces) *)

(** Modelled from the spec: [getNextTx() -> txId], 0 being the sentinel. *)
Definition getNextTx (w : World) : Z * World :=
  match Queue.nextTransaction (host w) with
  | (Some t, h) => (tx_id t, set_host h w)
  | (None, h) => (0, set_host h w)
  end.

(** Modelled from the spec: [getSender(txId) -> accountId]. *)
Definition getSender (id : Z) : M Z :=
  reads (fun w => from_option tx_sender 0 (Queue.lookup (host w) id)).

(** Modelled from the spec: [readMessage(txId, offset, outBuffer)] fills the
    four longs of the buffer from the payload, page [offset]. *)
Definition readMessage (id : Z) (offset : nat) : M (list Z) :=
  reads (fun w =>
    page offset (from_option tx_message [] (Queue.lookup (host w) id))).

(** Modelled from the spec: [getAmount(txId)], the native amount attached. *)
Definition getAmount (id : Z) : M Z :=
  reads (fun w => from_option tx_amount 0 (Queue.lookup (host w) id)).

(** Modelled from the spec: [getCreator()], the deploying account. *)
Definition getCreator : M Z := reads (fun w => creator (host w)).

(** Modelled from the spec: [getAssetBalance(assetId)], the contract's own
    balance of a secondary asset. *)
Definition getAssetBalance (assetId : Z) : M Z :=
  reads (fun w => Ledger.balanceOf (ledger (host w)) (self (host w)) assetId).

(** Modelled from the spec: an outbound transfer debited from the
    contract's own account; a Ledger fault aborts and leaves the ledger as
    it was. *)
Definition send (amount assetId recipientId : Z) : M unit :=
  fun w =>
    match Ledger.transfer (ledger (host w)) (self (host w)) recipientId
                          assetId amount with
    | inl f => Abort f w
    | inr l => Done tt (set_host (set_ledger l (host w)) w)
    end.

(** Modelled from the spec: [sendAmount(amount, recipientId)]. *)
Definition sendAmount (amount recipientId : Z) : M unit :=
  send amount 0 recipientId.

(** Modelled from the spec: [sendBalance(recipientId)], the whole native
    balance. *)
Definition sendBalance (recipientId : Z) : M unit :=
  b ← reads (fun w => Ledger.balanceOf (ledger (host w)) (self (host w)) 0);
  send b 0 recipientId.

(** Modelled from the spec: [sendQuantity(amount, assetId, recipientId)]. *)
Definition sendQuantity (amount assetId recipientId : Z) : M unit :=
  send amount assetId recipientId.

(** Modelled from the spec: [setMapValue(primaryKey, secondaryKey, value)]. *)
Definition setMapValue (primaryKey secondaryKey value : Z) : M unit :=
  update (fun w =>
    set_host (set_kvstore (KVStore.set (kvstore (host w))
                                       primaryKey secondaryKey value)
                          (host w)) w).

(** Modelled from the spec: reading the map back. *)
Definition getMapValue (primaryKey secondaryKey : Z) : M Z :=
  reads (fun w => KVStore.get (kvstore (host w)) primaryKey secondaryKey).

(** ** The handlers (lines 73-107) *)

Definition pullFunds (tokenId : Z) : M unit :=
  s ← reads (fun w => sender (currentTx w));
  c ← getCreator;
  if negb (s =? c) then ret tt
  else if tokenId =? 0 then
    c ← getCreator;
    sendBalance c
  else
    b ← getAssetBalance tokenId;
    c ← getCreator;
    sendQuantity b tokenId c.

Definition updatePercentage (newPercentage : Z) : M unit :=
  s ← reads (fun w => sender (currentTx w));
  c ← getCreator;
  if negb (s =? c) then ret tt
  else if newPercentage >? 100 then update (set_percentage 100)
  else if newPercentage <? 0 then update (set_percentage 0)
  else update (set_percentage newPercentage).

(** The argument [(amount * percentage)/100] of [sendAmount] at line 106. *)
Definition forwardedAmount (amount pct : Z) : Z :=
  Long.div (Long.mul amount pct) 100.

Definition forwardPercentage (recipientId : Z) : M unit :=
  p ← reads percentage;
  if p =? 0 then ret tt
  else
    i ← reads (fun w => txId (currentTx w));
    amount ← getAmount i;
    p ← reads percentage;
    sendAmount (forwardedAmount amount p) recipientId.

(** ** The main loop (lines 36-61) *)

(** Lines 39-40: the sender and the message of the current transaction are
    read into [currentTx]. *)
Definition readTx : M unit :=
  i ← reads (fun w => txId (currentTx w));
  s ← getSender i;
  update (set_sender s);;
  i ← reads (fun w => txId (currentTx w));
  m ← readMessage i 0;
  update (set_message m).

(** Lines 41-59: the [switch]; no [default] case. *)
Definition dispatch : M unit :=
  code ← reads (fun w => slot 0 (message (currentTx w)));
  if code =? FORWARD_PERCENTAGE then
    a ← reads (fun w => slot 1 (message (currentTx w)));
    forwardPercentage a
  else if code =? UPDATE_PERCENTAGE then
    a ← reads (fun w => slot 1 (message (currentTx w)));
    updatePercentage a
  else if code =? SET_MAP_VALUE then
    a ← reads (fun w => slot 1 (message (currentTx w)));
    b ← reads (fun w => slot 2 (message (currentTx w)));
    setMapValue MAP_KEY_EXAMPLE a b
  else if code =? PULL_FUNDS then
    a ← reads (fun w => slot 1 (message (currentTx w)));
    pullFunds a
  else ret tt.

(** The body of the [while] loop. *)
Definition loop_body : M unit := readTx;; dispatch.

(** Lines 67-71: [catch] jumps back to [main].  A fault therefore ends the
    turn of the transaction being processed, not the block, and the loop
    goes on from the machine as the fault left it. *)
Definition catch (r : Res unit) : World :=
  match r with
  | Done _ w => w
  | Abort _ w => w
  end.

(** [while ((currentTx.txId = getNextTx()) != 0) { ... }].  [None] means the
    fuel ran out before the loop ended. *)
Fixpoint main_loop (fuel : nat) (w : World) : option World :=
  match fuel with
  | O => None
  | S n =>
      let '(i, w1) := getNextTx w in
      let w2 := set_txId i w1 in
      if negb (i =? 0) then main_loop n (catch (loop_body w2))
      else Some w2
  end.

(** One more turn than there are pending transactions is always enough. *)
Definition main (w : World) : option World :=
  main_loop (S (length (Queue.pending (host w)))) w.

(** ** Deployment (lines 18-25 and 64-65) *)

(** The values the testbed defines together with [TESTBED]. *)
Record Testbed := mkTestbed {
  TESTBED_percentage : Z;
  TESTBED_text : Z
}.

Definition constructor : M unit := ret tt.

(** The globals at deployment: zero, unless [TESTBED] is defined, in which
    case [percentage] and [text] start at the values given. *)
Definition initial (tb : option Testbed) (h : Host) : World :=
  mkWorld (from_option TESTBED_percentage 0 tb)
          (from_option TESTBED_text 0 tb)
          (mkTXINFO 0 0 [0; 0; 0; 0])
          h.

Definition deploy (tb : option Testbed) (h : Host) : World :=
  catch (constructor (initial tb h)).

(** ** What one turn of the loop amounts to *)

(** [currentTx] once the sender and the message of transaction [t] have been
    read into it. *)
Definition received (t : Transaction) (w : World) : World :=
  set_message (page 0 (tx_message t)) (set_sender (tx_sender t) w).

(** The cursor moved past one transaction. *)
Definition advance (w : World) : World :=
  set_host (set_cursor (S (cursor (host w))) (host w)) w.

(** One turn of the loop on a transaction given directly, rather than found
    through the cursor and looked up by its id. *)
Definition process (w : World) (t : Transaction) : World :=
  catch (dispatch (received t (set_txId (tx_id t) (advance w)))).

(** The part of the machine that a turn of the loop leaves alone. *)
Definition same_block (w w' : World) : Prop :=
  currentTx w' = currentTx w
  /\ text w' = text w
  /\ queue (host w') = queue (host w)
  /\ cursor (host w') = cursor (host w)
  /\ creator (host w') = creator (host w)
  /\ self (host w') = self (host w).

(** Ids are unique in a block and 0 is reserved as the sentinel. *)
Definition wf_queue (q : list Transaction) : Prop :=
  NoDup (tx_id <$> q) /\ Forall (fun t => tx_id t <> 0) q.

(** Method code 2 sent by the creator. *)
Definition creator_update (h : Host) (t : Transaction) : Prop :=
  slot 0 (tx_message t) = UPDATE_PERCENTAGE /\ tx_sender t = creator h.

(** ** Worlds used in examples *)

Definition tx (i s a : Z) (m : list Z) : Transaction := mkTransaction i s a m.

Definition host0 (q : list Transaction) : Host :=
  mkHost 1000 2000 {[ (2000, 0) := 500; (2000, 7) := 30; (1000, 0) := 10 ]} ∅ q 0.

Definition world0 (p : Z) (q : list Transaction) : World :=
  mkWorld p 0 (mkTXINFO 0 0 [0; 0; 0; 0]) (host0 q).

(** The world at the top of the loop body when the first transaction of [q]
    has just been handed out. *)
Definition at_first (p : Z) (q : list Transaction) : World :=
  let '(i, w1) := getNextTx (world0 p q) in set_txId i w1.

(** A contract holding 10^17 of the native asset, handed a transaction that
    attaches 92233720368547759 while [percentage] is 100. *)
Definition tx_large : Transaction := tx 11 5 92233720368547759 [1; 77].

Definition world_large : World :=
  let '(i, w1) :=
    getNextTx (mkWorld 100 0 (mkTXINFO 0 0 [0; 0; 0; 0])
                 (mkHost 1000 2000 {[ (2000, 0) := 100000000000000000 ]} ∅
                         [tx_large] 0)) in
  set_txId i w1.

(** A contract holding 500 whose creator already holds 2^63 - 1, at the top
    of the loop body with a PullFunds transaction of the creator. *)
Definition world_creator_full : World :=
  let '(i, w1) :=
    getNextTx (mkWorld 20 0 (mkTXINFO 0 0 [0; 0; 0; 0])
                 (mkHost 1000 2000
                         {[ (2000, 0) := 500;
                            (1000, 0) := 9223372036854775807 ]} ∅
                         [tx 11 1000 0 [4; 0]] 0)) in
  set_txId i w1.

(** A contract holding 500 that is its own creator, at the top of the loop
    body with a PullFunds transaction sent from that account. *)
Definition world_own_creator : World :=
  let '(i, w1) :=
    getNextTx (mkWorld 20 0 (mkTXINFO 0 0 [0; 0; 0; 0])
                 (mkHost 2000 2000 {[ (2000, 0) := 500 ]} ∅
                         [tx 11 2000 0 [4; 0]] 0)) in
  set_txId i w1.

(** The recipient's native balance after a run, if the run completed. *)
Definition credited (recipientId : Z) (r : Res unit) : option Z :=
  match r with
  | Done _ w => Some (Ledger.balanceOf (ledger (host w)) recipientId 0)
  | Abort _ _ => None
  end.

(** ** What a block leaves behind *)

(** What outlives a turn of the loop: the globals other than [currentTx], and
    the host. *)
Definition durable (w : World) : Z * Z * Host :=
  (percentage w, text w, host w).

(** The key-value store after a transaction, read off its message alone. *)
Definition replay_map (m : gmap (Z * Z) Z) (t : Transaction)
  : gmap (Z * Z) Z :=
  if slot 0 (tx_message t) =? SET_MAP_VALUE
  then <[(MAP_KEY_EXAMPLE, slot 1 (tx_message t)) := slot 2 (tx_message t)]> m
  else m.

(** The percentage after a transaction, read off its sender and message
    alone, [c] being the creator. *)
Definition replay_percentage (c : Z) (p : Z) (t : Transaction) : Z :=
  if (slot 0 (tx_message t) =? UPDATE_PERCENTAGE) && (tx_sender t =? c)
  then Z.max 0 (Z.min 100 (slot 1 (tx_message t)))
  else p.

(** ** Basic facts *)

Ltac run :=
  unfold loop_body, readTx, dispatch, forwardPercentage, updatePercentage,
    pullFunds, setMapValue, getMapValue, sendAmount, sendBalance,
    sendQuantity, getAssetBalance, getCreator, getAmount, getSender,
    readMessage, constructor, catch, mbind, M_bind, bind, mret, M_ret,
    ret, reads, update in *;
  cbn [percentage text currentTx host txId sender message set_percentage
       set_currentTx set_txId set_sender set_message set_host] in *.

Lemma wrap_in_range z : Long.in_range z -> Long.wrap z = z.
Proof.
  unfold Long.in_range, Long.wrap, Long.min_long, Long.max_long. intros H.
  rewrite Z.mod_small; lia.
Qed.

Lemma wrap_range z : Long.in_range (Long.wrap z).
Proof.
  unfold Long.in_range, Long.wrap, Long.min_long, Long.max_long.
  pose proof (Z.mod_pos_bound (z + 2 ^ 63) (2 ^ 64)). lia.
Qed.

Lemma div_100_in_range a : Long.in_range a -> Long.div a 100 = a ÷ 100.
Proof.
  intros H. unfold Long.div. apply wrap_in_range.
  unfold Long.in_range, Long.min_long, Long.max_long in *.
  pose proof (Z.quot_le_mono a (2 ^ 63 - 1) 100).
  pose proof (Z.quot_le_mono (- 2 ^ 63) a 100).
  assert ((2 ^ 63 - 1) ÷ 100 <= 2 ^ 63 - 1) by (vm_compute; discriminate).
  assert (- 2 ^ 63 <= (- 2 ^ 63) ÷ 100) by (vm_compute; discriminate).
  lia.
Qed.

Lemma readTx_lookup w t :
  Queue.lookup (host w) (txId (currentTx w)) = Some t ->
  readTx w = Done tt (received t w).
Proof. intros H. run. rewrite H. reflexivity. Qed.

Lemma loop_body_lookup w t :
  Queue.lookup (host w) (txId (currentTx w)) = Some t ->
  loop_body w = dispatch (received t w).
Proof.
  intros H. unfold loop_body, mbind, M_bind, bind.
  rewrite (readTx_lookup w t H). reflexivity.
Qed.

Lemma slot_page0 i m : (i < 4)%nat -> slot i (page 0 m) = slot i m.
Proof. intros H. do 4 (destruct i as [|i]; [reflexivity|]). lia. Qed.

(** ** The model at work *)

(** A block of six transactions: 20 percent of 1000 goes to account 77; the
    creator raises the percentage to 150, stored as 100; forwarding 100
    percent of 1000 then exceeds the 300 left and faults, which ends that
    turn only; anyone may write the map; the creator pulls the native
    balance and the balance of asset 7. *)
Example block_run :
  (fun w => (percentage w, txId (currentTx w),
             map_to_list (ledger (host w)), map_to_list (kvstore (host w)),
             cursor (host w)))
    <$> main (world0 20 [tx 11 5 1000 [1; 77]; tx 12 1000 0 [2; 150];
                         tx 13 5 1000 [1; 77]; tx 14 9 0 [3; 8; 9];
                         tx 15 1000 0 [4; 0]; tx 16 1000 0 [4; 7]])
  = Some (100, 0,
          [(77, 0, 200); (1000, 0, 310); (2000, 0, 0); (1000, 7, 30);
           (2000, 7, 0)],
          [(1, 8, 9)], 6%nat).
Proof. vm_compute. reflexivity. Qed.

Example update_150_then_forward_100 :
  (fun w => Ledger.balanceOf (ledger (host w)) 77 0)
    <$> main (world0 0 [tx 11 1000 0 [2; 150]; tx 12 5 100 [1; 77]])
  = Some 100.
Proof. vm_compute. reflexivity. Qed.

Example update_minus_5_then_forward :
  (fun w => (percentage w, map_to_list (ledger (host w))))
    <$> main (world0 20 [tx 11 1000 0 [2; -5]; tx 12 5 100 [1; 77]])
  = Some (0, map_to_list (ledger (host0 []))).
Proof. vm_compute. reflexivity. Qed.

Example pull_by_stranger :
  (fun w => map_to_list (ledger (host w)))
    <$> main (world0 20 [tx 11 5 0 [4; 0]])
  = Some (map_to_list (ledger (host0 []))).
Proof. vm_compute. reflexivity. Qed.

(** An id 0 inside the block reads as the sentinel: the loop stops there. *)
Example zero_id_stops_the_loop :
  (fun w => (percentage w, cursor (host w)))
    <$> main (world0 20 [tx 0 1000 0 [2; 50]; tx 12 1000 0 [2; 60]])
  = Some (20, 1%nat).
Proof. vm_compute. reflexivity. Qed.

(** ** ForwardPercentage *)

Lemma forwardPercentage_unfold r w :
  forwardPercentage r w =
    if percentage w =? 0 then Done tt w
    else sendAmount
           (forwardedAmount
              (from_option tx_amount 0
                 (Queue.lookup (host w) (txId (currentTx w))))
              (percentage w)) r w.
Proof. run. destruct (percentage w =? 0); reflexivity. Qed.

Lemma dispatch_forward w :
  slot 0 (message (currentTx w)) = FORWARD_PERCENTAGE ->
  dispatch w = forwardPercentage (slot 1 (message (currentTx w))) w.
Proof.
  intros H. unfold dispatch, mbind, M_bind, bind, reads. rewrite H.
  reflexivity.
Qed.

(** C1 (as amended).  A transaction whose message slot 0 is 1, whoever sent
    it, does nothing when [percentage] is 0; otherwise the contract calls
    [sendAmount] for the recipient of message slot 1 with
    [(amount * percentage) / 100] computed on longs: the product wraps
    around 64 bits and the quotient is truncated toward zero.  The quotient
    is the floor whenever the wrapped product is not negative. *)
Theorem forward_percentage_tx (w : World) (t : Transaction) :
  Queue.lookup (host w) (txId (currentTx w)) = Some t ->
  slot 0 (tx_message t) = FORWARD_PERCENTAGE ->
  loop_body w =
    (if percentage w =? 0 then Done tt (received t w)
     else sendAmount (Long.div (Long.mul (tx_amount t) (percentage w)) 100)
                     (slot 1 (tx_message t)) (received t w))
  /\ (0 <= Long.mul (tx_amount t) (percentage w) ->
      Long.div (Long.mul (tx_amount t) (percentage w)) 100
      = Long.mul (tx_amount t) (percentage w) / 100).
Proof.
  intros Hl Hc. split.
  - rewrite (loop_body_lookup w t Hl), dispatch_forward by exact Hc.
    rewrite forwardPercentage_unfold. cbn. rewrite Hl. reflexivity.
  - intros Hp. unfold Long.mul in *.
    rewrite div_100_in_range by apply wrap_range.
    apply Z.quot_div_nonneg; lia.
Qed.

Lemma forward_percentage_tx_witness :
  Queue.lookup (host (at_first 20 [tx 11 5 1000 [1; 77]])) 11
    = Some (tx 11 5 1000 [1; 77])
  /\ credited 77 (loop_body (at_first 20 [tx 11 5 1000 [1; 77]])) = Some 200
  /\ Long.div (Long.mul 1000 20) 100 = Long.mul 1000 20 / 100.
Proof.
  pose proof (forward_percentage_tx (at_first 20 [tx 11 5 1000 [1; 77]])
                (tx 11 5 1000 [1; 77]) eq_refl eq_refl) as [Hrun Hfloor].
  split; [reflexivity|]. split.
  - rewrite Hrun. vm_compute. reflexivity.
  - apply Hfloor. vm_compute. discriminate.
Defined.

(** C1 (as stated) fails: with 92233720368547759 attached and [percentage]
    100 the amount handed to [sendAmount] is -92233720368547757, which is
    neither the floor of the exact product over 100 nor the floor of the
    wrapped product over 100. *)
Lemma forward_percentage_floor_fails :
  Queue.lookup (host world_large) (txId (currentTx world_large))
    = Some tx_large
  /\ slot 0 (tx_message tx_large) = FORWARD_PERCENTAGE
  /\ percentage world_large = 100
  /\ loop_body world_large
     = sendAmount (-92233720368547757) 77 (received tx_large world_large)
  /\ loop_body world_large
     <> sendAmount (tx_amount tx_large * percentage world_large / 100)
                   (slot 1 (tx_message tx_large))
                   (received tx_large world_large)
  /\ loop_body world_large
     <> sendAmount
          (Long.mul (tx_amount tx_large) (percentage world_large) / 100)
          (slot 1 (tx_message tx_large))
          (received tx_large world_large).
Proof.
  assert (Hrun : loop_body world_large
     = sendAmount (-92233720368547757) 77 (received tx_large world_large)).
  { rewrite (loop_body_lookup world_large tx_large eq_refl).
    rewrite dispatch_forward by reflexivity.
    rewrite forwardPercentage_unfold. reflexivity. }
  repeat split; try reflexivity; try exact Hrun.
  - rewrite Hrun. intros H. apply (f_equal (credited 77)) in H.
    vm_compute in H. discriminate.
  - rewrite Hrun. intros H. apply (f_equal (credited 77)) in H.
    vm_compute in H. discriminate.
Qed.

(** C8 (as amended).  For a non-negative attached amount and a percentage in
    [0,100] whose product is at most 2^63 - 1, the multiplication does not
    wrap and the handler sends exactly the floor of amount x percentage over
    100.  Nothing checks for overflow. *)
Theorem forward_exact_without_overflow (w : World) (t : Transaction) (r : Z) :
  Queue.lookup (host w) (txId (currentTx w)) = Some t ->
  0 <= tx_amount t ->
  0 <= percentage w <= 100 ->
  tx_amount t * percentage w <= Long.max_long ->
  Long.mul (tx_amount t) (percentage w) = tx_amount t * percentage w
  /\ forwardedAmount (tx_amount t) (percentage w)
     = tx_amount t * percentage w / 100
  /\ forwardPercentage r w =
       (if percentage w =? 0 then Done tt w
        else sendAmount (tx_amount t * percentage w / 100) r w).
Proof.
  intros Hl Ha Hp Hm.
  assert (Hr : Long.in_range (tx_amount t * percentage w)).
  { unfold Long.in_range, Long.min_long, Long.max_long in *. nia. }
  assert (Hmul : Long.mul (tx_amount t) (percentage w)
                 = tx_amount t * percentage w).
  { unfold Long.mul. apply wrap_in_range, Hr. }
  assert (Hf : forwardedAmount (tx_amount t) (percentage w)
               = tx_amount t * percentage w / 100).
  { unfold forwardedAmount. rewrite Hmul, div_100_in_range by exact Hr.
    apply Z.quot_div_nonneg; nia. }
  split; [exact Hmul|]. split; [exact Hf|].
  rewrite forwardPercentage_unfold, Hl. cbn. rewrite Hf. reflexivity.
Qed.

Lemma forward_exact_without_overflow_witness :
  forwardedAmount 1000 20 = 200
  /\ credited 77 (forwardPercentage 77 (at_first 20 [tx 11 5 1000 [1; 77]]))
     = Some 200.
Proof.
  pose proof (forward_exact_without_overflow
                (at_first 20 [tx 11 5 1000 [1; 77]]) (tx 11 5 1000 [1; 77]) 77
                eq_refl) as H.
  destruct H as (_ & Hf & Hrun).
  - vm_compute. discriminate.
  - split; vm_compute; discriminate.
  - vm_compute. discriminate.
  - split; [exact Hf|]. rewrite Hrun. vm_compute. reflexivity.
Defined.

(** C8 (as stated) fails: 184467440737095517 is a non-negative amount and
    100 a percentage in [0,100], yet the product wraps to 84 and the handler
    sends 0 instead of 184467440737095517; no fault is raised. *)
Lemma forwarded_amount_wraps :
  0 <= 184467440737095517
  /\ 0 <= 100 <= 100
  /\ Long.mul 184467440737095517 100 = 84
  /\ forwardedAmount 184467440737095517 100 = 0
  /\ forwardedAmount 184467440737095517 100
     <> 184467440737095517 * 100 / 100
  /\ credited 77 (loop_body
        (at_first 100 [tx 11 5 184467440737095517 [1; 77]])) = Some 0.
Proof.
  repeat split; try (vm_compute; congruence).
Qed.

(** ** UpdatePercentage *)

Lemma updatePercentage_unfold v w :
  updatePercentage v w =
    if negb (sender (currentTx w) =? creator (host w)) then Done tt w
    else Done tt (set_percentage (Z.max 0 (Z.min 100 v)) w).
Proof.
  run. destruct (negb _); [reflexivity|].
  destruct (Z.gtb_spec v 100); [f_equal; f_equal; lia|].
  destruct (Z.ltb_spec v 0); f_equal; f_equal; lia.
Qed.

Lemma dispatch_update w :
  slot 0 (message (currentTx w)) = UPDATE_PERCENTAGE ->
  dispatch w = updatePercentage (slot 1 (message (currentTx w))) w.
Proof.
  intros H. unfold dispatch, mbind, M_bind, bind, reads. rewrite H.
  reflexivity.
Qed.

(** C2.  A transaction with method code 2 sent by the creator stores message
    slot 1 clamped into [0,100]: 100 when it is above 100, 0 when it is
    below 0, and the value itself otherwise. *)
Theorem update_percentage_tx (w : World) (t : Transaction) :
  Queue.lookup (host w) (txId (currentTx w)) = Some t ->
  slot 0 (tx_message t) = UPDATE_PERCENTAGE ->
  tx_sender t = creator (host w) ->
  loop_body w
  = Done tt (set_percentage (Z.max 0 (Z.min 100 (slot 1 (tx_message t))))
                            (received t w))
  /\ (slot 1 (tx_message t) > 100 ->
      percentage (catch (loop_body w)) = 100)
  /\ (slot 1 (tx_message t) < 0 ->
      percentage (catch (loop_body w)) = 0)
  /\ (0 <= slot 1 (tx_message t) <= 100 ->
      percentage (catch (loop_body w)) = slot 1 (tx_message t)).
Proof.
  intros Hl Hc Hs.
  assert (Hrun : loop_body w
    = Done tt (set_percentage (Z.max 0 (Z.min 100 (slot 1 (tx_message t))))
                              (received t w))).
  { rewrite (loop_body_lookup w t Hl), dispatch_update by exact Hc.
    rewrite updatePercentage_unfold. cbn. rewrite Hs, Z.eqb_refl.
    reflexivity. }
  split; [exact Hrun|].
  rewrite Hrun. cbn. repeat split; intros; lia.
Qed.

Lemma update_percentage_tx_witness :
  percentage (catch (loop_body (at_first 20 [tx 11 1000 0 [2; 150]]))) = 100
  /\ percentage (catch (loop_body (at_first 20 [tx 11 1000 0 [2; -5]]))) = 0
  /\ percentage (catch (loop_body (at_first 20 [tx 11 1000 0 [2; 42]]))) = 42.
Proof.
  split; [|split].
  - apply (update_percentage_tx (at_first 20 [tx 11 1000 0 [2; 150]])
             (tx 11 1000 0 [2; 150]) eq_refl eq_refl eq_refl).
    reflexivity.
  - apply (update_percentage_tx (at_first 20 [tx 11 1000 0 [2; -5]])
             (tx 11 1000 0 [2; -5]) eq_refl eq_refl eq_refl).
    reflexivity.
  - apply (update_percentage_tx (at_first 20 [tx 11 1000 0 [2; 42]])
             (tx 11 1000 0 [2; 42]) eq_refl eq_refl eq_refl).
    cbn. lia.
Defined.

(** ** PullFunds *)

Lemma pullFunds_unfold a w :
  pullFunds a w =
    if negb (sender (currentTx w) =? creator (host w)) then Done tt w
    else send (Ledger.balanceOf (ledger (host w)) (self (host w)) a) a
              (creator (host w)) w.
Proof.
  run. destruct (negb _); [reflexivity|].
  destruct (Z.eqb_spec a 0) as [->|]; reflexivity.
Qed.

Lemma pullFunds_calls a w :
  sender (currentTx w) = creator (host w) ->
  pullFunds a w =
    (if a =? 0 then sendBalance (creator (host w))
     else sendQuantity (Ledger.balanceOf (ledger (host w)) (self (host w)) a)
                       a (creator (host w))) w.
Proof.
  intros H. run. rewrite H, Z.eqb_refl. cbn.
  destruct (a =? 0); reflexivity.
Qed.

Lemma dispatch_pull w :
  slot 0 (message (currentTx w)) = PULL_FUNDS ->
  dispatch w = pullFunds (slot 1 (message (currentTx w))) w.
Proof.
  intros H. unfold dispatch, mbind, M_bind, bind, reads. rewrite H.
  reflexivity.
Qed.

(** Sending the whole balance of an asset to another account that can hold
    it empties the sender's balance of that asset. *)
Lemma transfer_all (l : gmap (Z * Z) Z) (from to a : Z) :
  from <> to ->
  Long.in_range (Ledger.balanceOf l to a + Ledger.balanceOf l from a) ->
  exists l',
    Ledger.transfer l from to a (Ledger.balanceOf l from a) = inr l'
    /\ Ledger.balanceOf l' from a = 0
    /\ Ledger.balanceOf l' to a
       = Ledger.balanceOf l to a + Ledger.balanceOf l from a
    /\ forall k, k <> (from, a) -> k <> (to, a) -> l' !! k = l !! k.
Proof.
  intros Hne Hr. unfold Ledger.transfer, Ledger.debit.
  rewrite Z.ltb_irrefl, Z.sub_diag. unfold Ledger.credit.
  assert (Hto : Ledger.balanceOf (<[(from, a):=0]> l) to a
                = Ledger.balanceOf l to a).
  { unfold Ledger.balanceOf. rewrite lookup_insert_ne; congruence. }
  rewrite Hto. cbv zeta.
  replace (_ || _) with false.
  2:{ unfold Long.in_range in Hr. symmetry. apply orb_false_intro.
      - apply Z.ltb_ge. lia.
      - apply Z.ltb_ge. lia. }
  eexists. split; [reflexivity|]. repeat split.
  - unfold Ledger.balanceOf. rewrite lookup_insert_ne by congruence.
    rewrite lookup_insert_eq. reflexivity.
  - unfold Ledger.balanceOf at 1. rewrite lookup_insert_eq. reflexivity.
  - intros k H1 H2. rewrite !lookup_insert_ne by congruence. reflexivity.
Qed.

(** C3 (as amended).  A transaction with method code 4 sent by the creator
    calls [sendBalance] for the creator when message slot 1 is 0 and
    otherwise [sendQuantity] for the creator with the contract's whole
    balance of the asset in slot 1; either way the amount is the contract's
    full balance of that asset, never a value from the message.  When the
    creator is an account other than the contract and its balance of the
    asset plus the contract's fits in a long, the transfer completes: the
    contract's balance of the asset is left at 0, the creator's grows by
    it, and nothing else changes. *)
Theorem pull_funds_tx (w : World) (t : Transaction) :
  Queue.lookup (host w) (txId (currentTx w)) = Some t ->
  slot 0 (tx_message t) = PULL_FUNDS ->
  tx_sender t = creator (host w) ->
  loop_body w
  = (if slot 1 (tx_message t) =? 0 then sendBalance (creator (host w))
     else sendQuantity
            (Ledger.balanceOf (ledger (host w)) (self (host w))
                              (slot 1 (tx_message t)))
            (slot 1 (tx_message t)) (creator (host w))) (received t w)
  /\ loop_body w
     = send (Ledger.balanceOf (ledger (host w)) (self (host w))
                              (slot 1 (tx_message t)))
            (slot 1 (tx_message t)) (creator (host w)) (received t w)
  /\ (self (host w) <> creator (host w) ->
      Long.in_range
        (Ledger.balanceOf (ledger (host w)) (creator (host w))
                          (slot 1 (tx_message t))
         + Ledger.balanceOf (ledger (host w)) (self (host w))
                            (slot 1 (tx_message t))) ->
      exists w',
        loop_body w = Done tt w'
        /\ Ledger.balanceOf (ledger (host w')) (self (host w))
                            (slot 1 (tx_message t)) = 0
        /\ Ledger.balanceOf (ledger (host w')) (creator (host w))
                            (slot 1 (tx_message t))
           = Ledger.balanceOf (ledger (host w)) (creator (host w))
                              (slot 1 (tx_message t))
             + Ledger.balanceOf (ledger (host w)) (self (host w))
                                (slot 1 (tx_message t))
        /\ (forall k, k <> (self (host w), slot 1 (tx_message t)) ->
                      k <> (creator (host w), slot 1 (tx_message t)) ->
                      ledger (host w') !! k = ledger (host w) !! k)
        /\ percentage w' = percentage w
        /\ kvstore (host w') = kvstore (host w)).
Proof.
  intros Hl Hc Hs.
  assert (Hd : loop_body w = pullFunds (slot 1 (tx_message t)) (received t w)).
  { rewrite (loop_body_lookup w t Hl), dispatch_pull by exact Hc.
    reflexivity. }
  split; [|split].
  - rewrite Hd, pullFunds_calls by exact Hs. reflexivity.
  - rewrite Hd, pullFunds_unfold. cbn. rewrite Hs, Z.eqb_refl. reflexivity.
  - intros Hne Hr. rewrite Hd, pullFunds_unfold. cbn.
    rewrite Hs, Z.eqb_refl. cbn. unfold send. cbn.
    destruct (transfer_all _ _ _ _ Hne Hr) as (l' & -> & H0 & H1 & H2).
    eexists. split; [reflexivity|]. cbn. auto.
Qed.

Lemma pull_funds_tx_witness :
  exists w',
    loop_body (at_first 20 [tx 11 1000 0 [4; 0]]) = Done tt w'
    /\ Ledger.balanceOf (ledger (host w')) 2000 0 = 0
    /\ Ledger.balanceOf (ledger (host w')) 1000 0 = 10 + 500.
Proof.
  destruct (pull_funds_tx (at_first 20 [tx 11 1000 0 [4; 0]])
              (tx 11 1000 0 [4; 0]) eq_refl eq_refl eq_refl)
    as (_ & _ & H).
  destruct H as (w' & Hrun & H0 & H1 & _).
  - vm_compute. discriminate.
  - vm_compute. split; discriminate.
  - exists w'. auto.
Defined.

(** C3 (as stated) fails on the modelled ledger.  With the creator already
    holding 2^63 - 1 the credit overflows: the turn faults and the contract
    keeps its 500.  With the contract as its own creator the turn completes
    and the 500 are debited and credited back: the balance is 500, not 0. *)
Lemma pull_funds_can_leave_the_balance :
  Queue.lookup (host world_creator_full) (txId (currentTx world_creator_full))
    = Some (tx 11 1000 0 [4; 0])
  /\ slot 0 (tx_message (tx 11 1000 0 [4; 0])) = PULL_FUNDS
  /\ slot 1 (tx_message (tx 11 1000 0 [4; 0])) = 0
  /\ tx_sender (tx 11 1000 0 [4; 0]) = creator (host world_creator_full)
  /\ Ledger.balanceOf (ledger (host world_creator_full)) 2000 0 = 500
  /\ loop_body world_creator_full
     = Abort Overflow (received (tx 11 1000 0 [4; 0]) world_creator_full)
  /\ Ledger.balanceOf
       (ledger (host (catch (loop_body world_creator_full)))) 2000 0 = 500
  /\ Queue.lookup (host world_own_creator) (txId (currentTx world_own_creator))
     = Some (tx 11 2000 0 [4; 0])
  /\ tx_sender (tx 11 2000 0 [4; 0]) = creator (host world_own_creator)
  /\ credited 2000 (loop_body world_own_creator) = Some 500.
Proof.
  repeat split; vm_compute; reflexivity.
Qed.

(** ** Unauthorised senders and unknown method codes *)

Lemma updatePercentage_unauthorised v w :
  sender (currentTx w) <> creator (host w) ->
  updatePercentage v w = Done tt w.
Proof.
  intros H. rewrite updatePercentage_unfold.
  destruct (Z.eqb_spec (sender (currentTx w)) (creator (host w)));
    [contradiction | reflexivity].
Qed.

Lemma pullFunds_unauthorised a w :
  sender (currentTx w) <> creator (host w) ->
  pullFunds a w = Done tt w.
Proof.
  intros H. rewrite pullFunds_unfold.
  destruct (Z.eqb_spec (sender (currentTx w)) (creator (host w)));
    [contradiction | reflexivity].
Qed.

(** C4.  A transaction with method code 2 or 4 whose sender is not the
    creator completes without a fault and changes nothing but [currentTx]:
    the percentage and the whole host state (key-value store, ledger) are
    as before.  The check sits in the handlers themselves: called on any
    world whose current sender is not the creator, each returns at once. *)
Theorem unauthorised_tx (w : World) (t : Transaction) :
  Queue.lookup (host w) (txId (currentTx w)) = Some t ->
  slot 0 (tx_message t) = UPDATE_PERCENTAGE
  \/ slot 0 (tx_message t) = PULL_FUNDS ->
  tx_sender t <> creator (host w) ->
  loop_body w = Done tt (received t w)
  /\ percentage (catch (loop_body w)) = percentage w
  /\ kvstore (host (catch (loop_body w))) = kvstore (host w)
  /\ ledger (host (catch (loop_body w))) = ledger (host w)
  /\ host (catch (loop_body w)) = host w
  /\ (forall v w0, sender (currentTx w0) <> creator (host w0) ->
        updatePercentage v w0 = Done tt w0 /\ pullFunds v w0 = Done tt w0)
  /\ (forall w0, slot 0 (message (currentTx w0)) = UPDATE_PERCENTAGE ->
        dispatch w0 = updatePercentage (slot 1 (message (currentTx w0))) w0)
  /\ (forall w0, slot 0 (message (currentTx w0)) = PULL_FUNDS ->
        dispatch w0 = pullFunds (slot 1 (message (currentTx w0))) w0).
Proof.
  intros Hl Hc Hs.
  assert (Hrun : loop_body w = Done tt (received t w)).
  { rewrite (loop_body_lookup w t Hl). destruct Hc as [Hc|Hc].
    - rewrite dispatch_update by exact Hc.
      apply updatePercentage_unauthorised. exact Hs.
    - rewrite dispatch_pull by exact Hc.
      apply pullFunds_unauthorised. exact Hs. }
  split; [exact Hrun|]. rewrite Hrun.
  repeat split; auto using updatePercentage_unauthorised,
                           pullFunds_unauthorised, dispatch_update,
                           dispatch_pull.
Qed.

Lemma unauthorised_tx_witness :
  loop_body (at_first 20 [tx 11 5 0 [4; 0]])
    = Done tt (received (tx 11 5 0 [4; 0]) (at_first 20 [tx 11 5 0 [4; 0]]))
  /\ percentage (catch (loop_body (at_first 20 [tx 11 5 0 [2; 70]]))) = 20.
Proof.
  split.
  - refine (proj1 (unauthorised_tx (at_first 20 [tx 11 5 0 [4; 0]])
                     (tx 11 5 0 [4; 0]) eq_refl (or_intror eq_refl) _)).
    vm_compute. discriminate.
  - refine (proj1 (proj2 (unauthorised_tx (at_first 20 [tx 11 5 0 [2; 70]])
                            (tx 11 5 0 [2; 70]) eq_refl (or_introl eq_refl)
                            _))).
    vm_compute. discriminate.
Defined.

Lemma dispatch_unknown w :
  slot 0 (message (currentTx w)) <> FORWARD_PERCENTAGE ->
  slot 0 (message (currentTx w)) <> UPDATE_PERCENTAGE ->
  slot 0 (message (currentTx w)) <> SET_MAP_VALUE ->
  slot 0 (message (currentTx w)) <> PULL_FUNDS ->
  dispatch w = Done tt w.
Proof.
  intros H1 H2 H3 H4. unfold dispatch, mbind, M_bind, bind, reads.
  apply Z.eqb_neq in H1, H2, H3, H4. rewrite H1, H2, H3, H4. reflexivity.
Qed.

(** C5.  A transaction whose message slot 0 is none of 1, 2, 3, 4 completes
    without a fault and changes nothing but [currentTx]: percentage,
    key-value store and ledger are as before. *)
Theorem unknown_method_tx (w : World) (t : Transaction) :
  Queue.lookup (host w) (txId (currentTx w)) = Some t ->
  slot 0 (tx_message t) <> FORWARD_PERCENTAGE ->
  slot 0 (tx_message t) <> UPDATE_PERCENTAGE ->
  slot 0 (tx_message t) <> SET_MAP_VALUE ->
  slot 0 (tx_message t) <> PULL_FUNDS ->
  loop_body w = Done tt (received t w)
  /\ percentage (catch (loop_body w)) = percentage w
  /\ kvstore (host (catch (loop_body w))) = kvstore (host w)
  /\ ledger (host (catch (loop_body w))) = ledger (host w)
  /\ host (catch (loop_body w)) = host w.
Proof.
  intros Hl H1 H2 H3 H4.
  assert (Hrun : loop_body w = Done tt (received t w)).
  { rewrite (loop_body_lookup w t Hl). apply dispatch_unknown; assumption. }
  split; [exact Hrun|]. rewrite Hrun. cbn. auto.
Qed.

Lemma unknown_method_tx_witness :
  loop_body (at_first 20 [tx 11 1000 300 [99; 1; 2; 3]])
    = Done tt (received (tx 11 1000 300 [99; 1; 2; 3])
                        (at_first 20 [tx 11 1000 300 [99; 1; 2; 3]])).
Proof.
  refine (proj1 (unknown_method_tx
                   (at_first 20 [tx 11 1000 300 [99; 1; 2; 3]])
                   (tx 11 1000 300 [99; 1; 2; 3]) eq_refl _ _ _ _));
    vm_compute; discriminate.
Defined.

(** ** SetMapValue *)

Lemma dispatch_set w :
  slot 0 (message (currentTx w)) = SET_MAP_VALUE ->
  dispatch w = setMapValue MAP_KEY_EXAMPLE (slot 1 (message (currentTx w)))
                           (slot 2 (message (currentTx w))) w.
Proof.
  intros H. unfold dispatch, mbind, M_bind, bind, reads. rewrite H.
  reflexivity.
Qed.

(** A key that no write of a history touched still reads 0. *)
Lemma get_never_written (writes : list (Z * Z * Z)) (k1 k2 : Z) :
  Forall (fun e => (e.1.1, e.1.2) <> (k1, k2)) writes ->
  KVStore.get
    (foldl (fun m e => KVStore.set m e.1.1 e.1.2 e.2) ∅ writes) k1 k2 = 0.
Proof.
  intros H. unfold KVStore.get.
  assert (G : forall m : gmap (Z * Z) Z, m !! (k1, k2) = None ->
            foldl (fun m e => KVStore.set m e.1.1 e.1.2 e.2) m writes
              !! (k1, k2) = None).
  { induction H as [|e es He _ IH]; intros m Hm; [exact Hm|].
    cbn. apply IH. unfold KVStore.set. rewrite lookup_insert_ne; auto. }
  rewrite G; [reflexivity | apply lookup_empty].
Qed.

(** C6.  A transaction with method code 3, whoever sent it, overwrites the
    entry at primary key 1 and the secondary key of message slot 1 with the
    value of message slot 2.  Reading (1, that key) afterwards gives the
    value, the other entries are as before, and a key never written reads
    0. *)
Theorem set_map_value_tx (w : World) (t : Transaction) :
  Queue.lookup (host w) (txId (currentTx w)) = Some t ->
  slot 0 (tx_message t) = SET_MAP_VALUE ->
  loop_body w
  = Done tt (set_host
               (set_kvstore
                  (<[(1, slot 1 (tx_message t)) := slot 2 (tx_message t)]>
                     (kvstore (host w)))
                  (host w))
               (received t w))
  /\ getMapValue MAP_KEY_EXAMPLE (slot 1 (tx_message t))
                 (catch (loop_body w))
     = Done (slot 2 (tx_message t)) (catch (loop_body w))
  /\ (forall k1 k2, (k1, k2) <> (1, slot 1 (tx_message t)) ->
        KVStore.get (kvstore (host (catch (loop_body w)))) k1 k2
        = KVStore.get (kvstore (host w)) k1 k2)
  /\ (forall m k1 k2, m !! (k1, k2) = None -> KVStore.get m k1 k2 = 0)
  /\ (forall writes k1 k2,
        Forall (fun e : Z * Z * Z => (e.1.1, e.1.2) <> (k1, k2)) writes ->
        KVStore.get
          (foldl (fun m e => KVStore.set m e.1.1 e.1.2 e.2) ∅ writes)
          k1 k2 = 0).
Proof.
  intros Hl Hc.
  assert (Hrun : loop_body w
    = Done tt (set_host
                 (set_kvstore
                    (<[(1, slot 1 (tx_message t)) := slot 2 (tx_message t)]>
                       (kvstore (host w)))
                    (host w))
                 (received t w))).
  { rewrite (loop_body_lookup w t Hl), dispatch_set by exact Hc.
    reflexivity. }
  split; [exact Hrun|]. rewrite Hrun. cbn [catch].
  split; [|split; [|split]].
  - unfold getMapValue, reads, KVStore.get, MAP_KEY_EXAMPLE.
    cbn [host set_host kvstore set_kvstore].
    rewrite lookup_insert_eq. reflexivity.
  - intros k1 k2 Hk. unfold KVStore.get.
    cbn [host set_host kvstore set_kvstore].
    rewrite lookup_insert_ne by congruence. reflexivity.
  - intros m k1 k2 Hm. unfold KVStore.get. rewrite Hm. reflexivity.
  - apply get_never_written.
Qed.

Lemma set_map_value_tx_witness :
  getMapValue 1 8 (catch (loop_body (at_first 20 [tx 11 5 0 [3; 8; 9]])))
  = Done 9 (catch (loop_body (at_first 20 [tx 11 5 0 [3; 8; 9]]))).
Proof.
  exact (proj1 (proj2 (set_map_value_tx (at_first 20 [tx 11 5 0 [3; 8; 9]])
                         (tx 11 5 0 [3; 8; 9]) eq_refl eq_refl))).
Defined.

(** ** What no handler touches *)

Lemma same_block_refl w : same_block w w.
Proof. repeat split. Qed.

Lemma send_effect a b c w :
  same_block w (catch (send a b c w))
  /\ percentage (catch (send a b c w)) = percentage w
  /\ kvstore (host (catch (send a b c w))) = kvstore (host w).
Proof.
  unfold send. destruct (Ledger.transfer _ _ _ _ _); repeat split.
Qed.

(** Every run of the [switch], completed or aborted, leaves the block and
    [currentTx] alone, and changes [percentage] only through method code 2
    sent by the creator, to the clamped value. *)
Lemma dispatch_effect w :
  same_block w (catch (dispatch w))
  /\ (percentage (catch (dispatch w)) = percentage w
      \/ (slot 0 (message (currentTx w)) = UPDATE_PERCENTAGE
          /\ sender (currentTx w) = creator (host w)
          /\ percentage (catch (dispatch w))
             = Z.max 0 (Z.min 100 (slot 1 (message (currentTx w)))))).
Proof.
  destruct (Z.eq_dec (slot 0 (message (currentTx w))) FORWARD_PERCENTAGE)
    as [H1|H1].
  { rewrite dispatch_forward, forwardPercentage_unfold by exact H1.
    destruct (percentage w =? 0).
    - split; [apply same_block_refl | now left].
    - destruct (send_effect
                  (forwardedAmount
                     (from_option tx_amount 0
                        (Queue.lookup (host w) (txId (currentTx w))))
                     (percentage w)) 0 (slot 1 (message (currentTx w))) w)
        as (? & ? & ?).
      unfold sendAmount. auto. }
  destruct (Z.eq_dec (slot 0 (message (currentTx w))) UPDATE_PERCENTAGE)
    as [H2|H2].
  { rewrite dispatch_update, updatePercentage_unfold by exact H2.
    destruct (Z.eqb_spec (sender (currentTx w)) (creator (host w))); cbn.
    - split; [repeat split | right; auto].
    - split; [apply same_block_refl | now left]. }
  destruct (Z.eq_dec (slot 0 (message (currentTx w))) SET_MAP_VALUE)
    as [H3|H3].
  { rewrite dispatch_set by exact H3. split; [repeat split | now left]. }
  destruct (Z.eq_dec (slot 0 (message (currentTx w))) PULL_FUNDS)
    as [H4|H4].
  { rewrite dispatch_pull, pullFunds_unfold by exact H4.
    destruct (negb _).
    - split; [apply same_block_refl | now left].
    - destruct (send_effect
                  (Ledger.balanceOf (ledger (host w)) (self (host w))
                     (slot 1 (message (currentTx w))))
                  (slot 1 (message (currentTx w))) (creator (host w)) w)
        as (? & ? & ?).
      auto. }
  rewrite dispatch_unknown by assumption.
  split; [apply same_block_refl | now left].
Qed.

(** Reading the transaction never faults and writes [currentTx] only. *)
Lemma readTx_done w :
  exists c, readTx w = Done tt (set_currentTx c w)
            /\ txId c = txId (currentTx w).
Proof. run. eexists. split; reflexivity. Qed.

Lemma loop_body_effect w :
  text (catch (loop_body w)) = text w
  /\ txId (currentTx (catch (loop_body w))) = txId (currentTx w)
  /\ queue (host (catch (loop_body w))) = queue (host w)
  /\ cursor (host (catch (loop_body w))) = cursor (host w)
  /\ creator (host (catch (loop_body w))) = creator (host w)
  /\ self (host (catch (loop_body w))) = self (host w)
  /\ (percentage (catch (loop_body w)) = percentage w
      \/ (slot 0 (message (currentTx (catch (loop_body w))))
          = UPDATE_PERCENTAGE
          /\ 0 <= percentage (catch (loop_body w)) <= 100)).
Proof.
  destruct (readTx_done w) as (c & Hr & Hc).
  assert (E : loop_body w = dispatch (set_currentTx c w)).
  { unfold loop_body, mbind, M_bind, bind. rewrite Hr. reflexivity. }
  rewrite E.
  destruct (dispatch_effect (set_currentTx c w))
    as ((E1 & E2 & E3 & E4 & E5 & E6) & Hp).
  cbn in *. rewrite E1. repeat split; auto.
  destruct Hp as [Hp | (Hu & _ & Hp)]; [now left | right].
  split; [exact Hu | lia].
Qed.

(** ** The percentage invariant *)

Lemma loop_body_range w :
  0 <= percentage w <= 100 ->
  0 <= percentage (catch (loop_body w)) <= 100.
Proof.
  intros H.
  destruct (loop_body_effect w) as (_ & _ & _ & _ & _ & _ & [-> | [_ Hp]]);
    assumption.
Qed.

Lemma getNextTx_percentage w : percentage (getNextTx w).2 = percentage w.
Proof.
  unfold getNextTx, Queue.nextTransaction.
  destruct (queue (host w) !! cursor (host w)); reflexivity.
Qed.

Lemma main_loop_range fuel : forall w w',
  main_loop fuel w = Some w' ->
  0 <= percentage w <= 100 -> 0 <= percentage w' <= 100.
Proof.
  induction fuel as [|n IH]; intros w w'; [discriminate|].
  cbn [main_loop]. pose proof (getNextTx_percentage w) as Hp.
  destruct (getNextTx w) as [i w1]. cbn in Hp.
  destruct (negb (i =? 0)).
  - intros Hm Hr. apply (IH _ _ Hm). apply loop_body_range.
    cbn. lia.
  - intros [= <-] Hr. cbn. lia.
Qed.

(** C9.  If [percentage] lies in [0,100] it still does after any turn of
    the loop, whatever the transaction, its sender and its message, and so
    it does when the whole block has been processed.  [percentage] changes
    only in a turn whose method code is 2. *)
Theorem percentage_invariant (w : World) :
  0 <= percentage w <= 100 ->
  0 <= percentage (catch (loop_body w)) <= 100
  /\ (slot 0 (message (currentTx (catch (loop_body w))))
        <> UPDATE_PERCENTAGE ->
      percentage (catch (loop_body w)) = percentage w)
  /\ (forall fuel w', main_loop fuel w = Some w' ->
                      0 <= percentage w' <= 100).
Proof.
  intros H. split; [apply loop_body_range, H|]. split.
  - destruct (loop_body_effect w)
      as (_ & _ & _ & _ & _ & _ & [Hp | [Hu _]]); [auto | contradiction].
  - intros fuel w' Hm. exact (main_loop_range fuel w w' Hm H).
Qed.

(** ** The main loop *)

Lemma getNextTx_some w t :
  queue (host w) !! cursor (host w) = Some t ->
  getNextTx w = (tx_id t, advance w).
Proof.
  intros H. unfold getNextTx, Queue.nextTransaction. rewrite H. reflexivity.
Qed.

Lemma getNextTx_none w :
  queue (host w) !! cursor (host w) = None -> getNextTx w = (0, w).
Proof.
  intros H. unfold getNextTx, Queue.nextTransaction. rewrite H.
  destruct w. reflexivity.
Qed.

Lemma pending_nil h :
  Queue.pending h = [] -> queue h !! cursor h = None.
Proof.
  unfold Queue.pending. intros H. apply lookup_ge_None.
  apply (f_equal length) in H. rewrite length_drop in H. cbn in H. lia.
Qed.

Lemma pending_cons h t ts :
  Queue.pending h = t :: ts ->
  queue h !! cursor h = Some t /\ drop (S (cursor h)) (queue h) = ts.
Proof.
  unfold Queue.pending. intros H.
  assert (Ht : queue h !! cursor h = Some t).
  { pose proof (lookup_drop (queue h) (cursor h) 0) as E.
    rewrite H, Nat.add_0_r in E. cbn in E. congruence. }
  split; [exact Ht|].
  rewrite (drop_S _ _ _ Ht) in H. congruence.
Qed.

(** With unique ids, looking a transaction of the block up by its id finds
    that transaction. *)
Lemma find_unique (q : list Transaction) (i : nat) (t : Transaction) :
  NoDup (tx_id <$> q) -> q !! i = Some t ->
  find (fun t' => tx_id t' =? tx_id t) q = Some t.
Proof.
  revert i. induction q as [|x q IH]; intros i Hnd Hi; [discriminate|].
  cbn in Hnd. apply NoDup_cons in Hnd as [Hx Hnd]. cbn.
  destruct i as [|i]; cbn in Hi.
  - injection Hi as ->. rewrite Z.eqb_refl. reflexivity.
  - destruct (Z.eqb_spec (tx_id x) (tx_id t)) as [E|_].
    + exfalso. apply Hx. rewrite E. apply list_elem_of_fmap.
      exists t. split; [reflexivity|].
      apply list_elem_of_lookup. eauto.
    + eapply IH; eauto.
Qed.

(** A turn of the loop on the transaction under the cursor is [process]. *)
Lemma turn_is_process w t :
  NoDup (tx_id <$> queue (host w)) ->
  queue (host w) !! cursor (host w) = Some t ->
  catch (loop_body (set_txId (tx_id t) (advance w))) = process w t.
Proof.
  intros Hnd Ht. unfold process.
  rewrite (loop_body_lookup _ t); [reflexivity|].
  unfold Queue.lookup. cbn. eapply find_unique; eauto.
Qed.

Lemma process_block w t :
  queue (host (process w t)) = queue (host w)
  /\ cursor (host (process w t)) = S (cursor (host w))
  /\ creator (host (process w t)) = creator (host w)
  /\ txId (currentTx (process w t)) = tx_id t.
Proof.
  unfold process.
  destruct (dispatch_effect
              (received t (set_txId (tx_id t) (advance w))))
    as ((E1 & _ & E3 & E4 & E5 & _) & _).
  rewrite E1, E3, E4, E5. repeat split.
Qed.

Lemma main_loop_fold (ts : list Transaction) : forall (w : World) (fuel : nat),
  Queue.pending (host w) = ts ->
  wf_queue (queue (host w)) ->
  (length ts < fuel)%nat ->
  main_loop fuel w = Some (set_txId 0 (foldl process w ts)).
Proof.
  induction ts as [|t ts IH]; intros w fuel Hp Hwf Hf.
  - destruct fuel as [|n]; [cbn in Hf; lia|]. cbn [main_loop].
    rewrite (getNextTx_none w) by (apply pending_nil, Hp). reflexivity.
  - destruct fuel as [|n]; [cbn in Hf; lia|]. cbn [main_loop].
    destruct (pending_cons _ _ _ Hp) as [Ht Hd].
    rewrite (getNextTx_some w t Ht).
    destruct Hwf as [Hnd Hnz].
    assert (Hz : tx_id t <> 0).
    { rewrite Forall_forall in Hnz. apply Hnz.
      apply list_elem_of_lookup. eauto. }
    apply Z.eqb_neq in Hz. rewrite Hz. cbn [negb].
    rewrite (turn_is_process w t Hnd Ht). cbn [foldl].
    destruct (process_block w t) as (Eq & Ec & _).
    apply IH.
    + unfold Queue.pending. rewrite Eq, Ec. exact Hd.
    + rewrite Eq. split; assumption.
    + cbn in Hf. lia.
Qed.

Lemma main_loop_short (ts : list Transaction) : forall (w : World) (fuel : nat),
  Queue.pending (host w) = ts ->
  wf_queue (queue (host w)) ->
  (fuel <= length ts)%nat ->
  main_loop fuel w = None.
Proof.
  induction ts as [|t ts IH]; intros w fuel Hp Hwf Hf.
  - destruct fuel; [reflexivity | cbn in Hf; lia].
  - destruct fuel as [|n]; [reflexivity|]. cbn [main_loop].
    destruct (pending_cons _ _ _ Hp) as [Ht Hd].
    rewrite (getNextTx_some w t Ht).
    destruct Hwf as [Hnd Hnz].
    assert (Hz : tx_id t <> 0).
    { rewrite Forall_forall in Hnz. apply Hnz.
      apply list_elem_of_lookup. eauto. }
    apply Z.eqb_neq in Hz. rewrite Hz. cbn [negb].
    rewrite (turn_is_process w t Hnd Ht).
    destruct (process_block w t) as (Eq & Ec & _).
    apply IH.
    + unfold Queue.pending. rewrite Eq, Ec. exact Hd.
    + rewrite Eq. split; assumption.
    + cbn in Hf. lia.
Qed.

Lemma foldl_process_block (ts : list Transaction) : forall w,
  queue (host (foldl process w ts)) = queue (host w)
  /\ cursor (host (foldl process w ts)) = (cursor (host w) + length ts)%nat
  /\ creator (host (foldl process w ts)) = creator (host w).
Proof.
  induction ts as [|t ts IH]; intros w; cbn [foldl length].
  - rewrite Nat.add_0_r. repeat split.
  - destruct (IH (process w t)) as (E1 & E2 & E3).
    destruct (process_block w t) as (P1 & P2 & P3 & _).
    rewrite E1, E2, E3, P1, P2, P3. repeat split. lia.
Qed.

(** The loop ends on every block, well formed or not. *)
Lemma main_total_from (k : nat) : forall w,
  length (Queue.pending (host w)) = k ->
  exists w', main_loop (S k) w = Some w'.
Proof.
  induction k as [|k IH]; intros w Hk.
  - cbn [main_loop]. rewrite (getNextTx_none w).
    + destruct (negb (0 =? 0)) eqn:E; [discriminate E | eauto].
    + apply pending_nil. destruct (Queue.pending (host w));
        [reflexivity | discriminate].
  - destruct (Queue.pending (host w)) as [|t ts] eqn:Hp; [discriminate|].
    destruct (pending_cons _ _ _ Hp) as [Ht Hd].
    change (main_loop (S (S k)) w) with
      (let '(i, w1) := getNextTx w in
       let w2 := set_txId i w1 in
       if negb (i =? 0) then main_loop (S k) (catch (loop_body w2))
       else Some w2).
    rewrite (getNextTx_some w t Ht). cbv zeta.
    destruct (negb (tx_id t =? 0)); [|eauto].
    apply IH. unfold Queue.pending.
    destruct (loop_body_effect (set_txId (tx_id t) (advance w)))
      as (_ & _ & E3 & E4 & _).
    rewrite E3, E4. cbn. rewrite Hd. cbn in Hk. lia.
Qed.

Lemma main_total w : exists w', main w = Some w'.
Proof. apply main_total_from. reflexivity. Qed.

Lemma percentage_invariant_witness :
  0 <= percentage (catch (loop_body (at_first 20 [tx 11 1000 0 [2; 150]])))
    <= 100
  /\ (exists w', main (world0 20 [tx 11 1000 0 [2; 150]; tx 12 5 9 [1; 77]])
                 = Some w' /\ 0 <= percentage w' <= 100).
Proof.
  split.
  - refine (proj1 (percentage_invariant
                     (at_first 20 [tx 11 1000 0 [2; 150]]) _)).
    vm_compute. split; discriminate.
  - destruct (main_total
                (world0 20 [tx 11 1000 0 [2; 150]; tx 12 5 9 [1; 77]]))
      as [w' Hw'].
    exists w'. split; [exact Hw'|].
    refine (proj2 (proj2 (percentage_invariant
              (world0 20 [tx 11 1000 0 [2; 150]; tx 12 5 9 [1; 77]]) _))
              _ w' Hw').
    vm_compute. split; discriminate.
Defined.

(** C7.  On a block whose transaction ids are distinct and not 0, [main]
    returns, and its result is the left fold of [process] over the pending
    transactions in queue order: each is handled once, in arrival order,
    its own sender and message being read into [currentTx] before the
    [switch] runs.  The loop takes exactly one call of [getNextTx] per
    pending transaction plus the one that returns 0, on which it stops with
    nothing left pending. *)
Theorem main_processes_queue_in_order (w : World) :
  wf_queue (queue (host w)) ->
  main w = Some (set_txId 0 (foldl process w (Queue.pending (host w))))
  /\ (forall fuel,
        main_loop fuel w = None
        <-> (fuel <= length (Queue.pending (host w)))%nat)
  /\ (forall w', main w = Some w' ->
        txId (currentTx w') = 0
        /\ Queue.pending (host w') = []
        /\ getNextTx w' = (0, w')).
Proof.
  intros Hwf.
  assert (Hmain : main w
    = Some (set_txId 0 (foldl process w (Queue.pending (host w))))).
  { unfold main. apply main_loop_fold; auto. }
  split; [exact Hmain|]. split.
  - intros fuel. split.
    + intros Hn. destruct (le_lt_dec fuel (length (Queue.pending (host w))))
        as [Hle|Hlt]; [exact Hle|].
      rewrite (main_loop_fold _ w fuel eq_refl Hwf Hlt) in Hn. discriminate.
    + intros Hle. exact (main_loop_short _ w fuel eq_refl Hwf Hle).
  - intros w' Hw'. rewrite Hmain in Hw'. injection Hw' as <-.
    destruct (foldl_process_block (Queue.pending (host w)) w) as (E1 & E2 & _).
    assert (Hnil : Queue.pending
                     (host (set_txId 0 (foldl process w
                                          (Queue.pending (host w))))) = []).
    { unfold Queue.pending at 1. cbn. rewrite E1, E2.
      apply drop_ge. unfold Queue.pending. rewrite length_drop. lia. }
    split; [reflexivity|]. split; [exact Hnil|].
    apply getNextTx_none, pending_nil, Hnil.
Qed.

Lemma main_processes_queue_in_order_witness :
  main (world0 20 [tx 11 5 1000 [1; 77]; tx 12 1000 0 [2; 150]])
  = Some (set_txId 0
            (foldl process
               (world0 20 [tx 11 5 1000 [1; 77]; tx 12 1000 0 [2; 150]])
               [tx 11 5 1000 [1; 77]; tx 12 1000 0 [2; 150]]))
  /\ main_loop 2 (world0 20 [tx 11 5 1000 [1; 77]; tx 12 1000 0 [2; 150]])
     = None.
Proof.
  assert (Hwf : wf_queue [tx 11 5 1000 [1; 77]; tx 12 1000 0 [2; 150]]).
  { split.
    - apply (bool_decide_unpack _). vm_compute. exact I.
    - repeat constructor; vm_compute; discriminate. }
  destruct (main_processes_queue_in_order
              (world0 20 [tx 11 5 1000 [1; 77]; tx 12 1000 0 [2; 150]]) Hwf)
    as (Hmain & Hfuel & _).
  split; [exact Hmain|]. apply Hfuel. cbn. lia.
Defined.

(** ** A fresh contract *)

Lemma process_percentage w t :
  percentage (process w t) = percentage w
  \/ (creator_update (host w) t /\ 0 <= percentage (process w t) <= 100).
Proof.
  unfold process.
  destruct (dispatch_effect
              (received t (set_txId (tx_id t) (advance w))))
    as (_ & [Hp | (Hu & Hs & Hp)]); [now left|].
  right. split; [split; assumption | lia].
Qed.

Lemma process_forward_zero w t :
  percentage w = 0 ->
  slot 0 (tx_message t) = FORWARD_PERCENTAGE ->
  process w t = received t (set_txId (tx_id t) (advance w)).
Proof.
  intros Hp Hc. unfold process.
  rewrite dispatch_forward by exact Hc. rewrite forwardPercentage_unfold.
  cbn [percentage received set_message set_sender set_currentTx set_txId
       advance set_host].
  rewrite Hp. reflexivity.
Qed.

Lemma foldl_process_zero (ts : list Transaction) : forall w,
  percentage w = 0 ->
  Forall (fun t => ~ creator_update (host w) t) ts ->
  percentage (foldl process w ts) = 0.
Proof.
  induction ts as [|t ts IH]; intros w Hp Hts; [exact Hp|].
  apply Forall_cons in Hts as [Ht Hts]. cbn [foldl]. apply IH.
  - destruct (process_percentage w t) as [-> | [Hu _]];
      [exact Hp | contradiction].
  - destruct (process_block w t) as (_ & _ & Ec & _).
    unfold creator_update in *. rewrite Ec. exact Hts.
Qed.

(** C10 (as amended).  A contract deployed without [TESTBED], or with
    [TESTBED_percentage] 0, starts with [percentage] 0, and [percentage] is
    still 0 after any transactions none of which is a method code 2 sent by
    the creator.  A ForwardPercentage transaction processed then returns
    before [sendAmount]: it completes and leaves the ledger as it was. *)
Theorem fresh_contract_forwards_nothing (tb : option Testbed) (h : Host) :
  from_option TESTBED_percentage 0 tb = 0 ->
  percentage (deploy tb h) = 0
  /\ (forall ts, Forall (fun t => ~ creator_update h t) ts ->
        percentage (foldl process (deploy tb h) ts) = 0
        /\ (forall t, slot 0 (tx_message t) = FORWARD_PERCENTAGE ->
              dispatch (received t (set_txId (tx_id t)
                          (advance (foldl process (deploy tb h) ts))))
              = Done tt (received t (set_txId (tx_id t)
                          (advance (foldl process (deploy tb h) ts))))
              /\ ledger (host (process (foldl process (deploy tb h) ts) t))
                 = ledger (host (foldl process (deploy tb h) ts))))
  /\ (wf_queue (queue h) ->
      Forall (fun t => ~ creator_update h t) (Queue.pending h) ->
      forall w', main (deploy tb h) = Some w' -> percentage w' = 0).
Proof.
  intros Htb.
  assert (H0 : percentage (deploy tb h) = 0) by exact Htb.
  assert (Hz : forall ts, Forall (fun t => ~ creator_update h t) ts ->
                 percentage (foldl process (deploy tb h) ts) = 0).
  { intros ts Hts. apply foldl_process_zero; [exact H0 | exact Hts]. }
  split; [exact H0|]. split.
  - intros ts Hts. split; [apply Hz, Hts|]. intros t Hc.
    pose proof (Hz ts Hts) as Hp. split.
    + rewrite dispatch_forward by exact Hc.
      rewrite forwardPercentage_unfold.
      cbn [percentage received set_message set_sender set_currentTx set_txId
           advance set_host].
      rewrite Hp. reflexivity.
    + rewrite (process_forward_zero _ t Hp Hc). reflexivity.
  - intros Hwf Hts w' Hm.
    assert (E : main (deploy tb h)
                = Some (set_txId 0
                          (foldl process (deploy tb h)
                                 (Queue.pending (host (deploy tb h))))))
      by (unfold main; apply main_loop_fold; auto).
    rewrite E in Hm. injection Hm as <-. cbn [percentage set_txId set_currentTx].
    apply Hz, Hts.
Qed.

Lemma fresh_contract_forwards_nothing_witness :
  percentage (deploy None (host0 [tx 11 5 1000 [1; 77]])) = 0
  /\ ledger (host (process (deploy None (host0 [tx 11 5 1000 [1; 77]]))
                           (tx 11 5 1000 [1; 77])))
     = ledger (host0 [tx 11 5 1000 [1; 77]]).
Proof.
  destruct (fresh_contract_forwards_nothing None
              (host0 [tx 11 5 1000 [1; 77]]) eq_refl) as (H0 & Hts & _).
  split; [exact H0|].
  exact (proj2 (proj2 (Hts [] (Forall_nil_2 _)) (tx 11 5 1000 [1; 77])
                      eq_refl)).
Defined.

(** C10 (as stated) fails: deployed by the testbed with [TESTBED_percentage]
    50, the fresh contract holds 50 before any UpdatePercentage, and the
    first ForwardPercentage transaction, attaching 1000, moves 500 to the
    recipient. *)
Lemma fresh_testbed_contract_forwards :
  percentage (deploy (Some (mkTestbed 50 0)) (host0 [tx 11 5 1000 [1; 77]]))
  = 50
  /\ ~ creator_update (host0 [tx 11 5 1000 [1; 77]]) (tx 11 5 1000 [1; 77])
  /\ slot 0 (tx_message (tx 11 5 1000 [1; 77])) = FORWARD_PERCENTAGE
  /\ Ledger.balanceOf (ledger (host0 [tx 11 5 1000 [1; 77]])) 77 0 = 0
  /\ (fun w => Ledger.balanceOf (ledger (host w)) 77 0)
       <$> main (deploy (Some (mkTestbed 50 0))
                        (host0 [tx 11 5 1000 [1; 77]]))
     = Some 500.
Proof.
  split; [reflexivity|]. split.
  - intros [_ H]. vm_compute in H. discriminate.
  - repeat split; vm_compute; reflexivity.
Qed.

(** ** More on the switch *)

(** The [switch] passes control to exactly one handler, or to none. *)
Lemma dispatch_cases w :
  (slot 0 (message (currentTx w)) = FORWARD_PERCENTAGE
   /\ dispatch w = forwardPercentage (slot 1 (message (currentTx w))) w)
  \/ (slot 0 (message (currentTx w)) = UPDATE_PERCENTAGE
      /\ dispatch w = updatePercentage (slot 1 (message (currentTx w))) w)
  \/ (slot 0 (message (currentTx w)) = SET_MAP_VALUE
      /\ dispatch w = setMapValue MAP_KEY_EXAMPLE
                        (slot 1 (message (currentTx w)))
                        (slot 2 (message (currentTx w))) w)
  \/ (slot 0 (message (currentTx w)) = PULL_FUNDS
      /\ dispatch w = pullFunds (slot 1 (message (currentTx w))) w)
  \/ (slot 0 (message (currentTx w)) <> FORWARD_PERCENTAGE
      /\ slot 0 (message (currentTx w)) <> UPDATE_PERCENTAGE
      /\ slot 0 (message (currentTx w)) <> SET_MAP_VALUE
      /\ slot 0 (message (currentTx w)) <> PULL_FUNDS
      /\ dispatch w = Done tt w).
Proof.
  destruct (Z.eq_dec (slot 0 (message (currentTx w))) FORWARD_PERCENTAGE)
    as [H1|H1].
  { left. split; [exact H1 | apply dispatch_forward, H1]. }
  destruct (Z.eq_dec (slot 0 (message (currentTx w))) UPDATE_PERCENTAGE)
    as [H2|H2].
  { right; left. split; [exact H2 | apply dispatch_update, H2]. }
  destruct (Z.eq_dec (slot 0 (message (currentTx w))) SET_MAP_VALUE)
    as [H3|H3].
  { right; right; left. split; [exact H3 | apply dispatch_set, H3]. }
  destruct (Z.eq_dec (slot 0 (message (currentTx w))) PULL_FUNDS)
    as [H4|H4].
  { right; right; right; left. split; [exact H4 | apply dispatch_pull, H4]. }
  right; right; right; right.
  repeat split; try assumption. apply dispatch_unknown; assumption.
Qed.

Lemma send_ledger a b c w :
  kvstore (host (catch (send a b c w))) = kvstore (host w)
  /\ durable (catch (send a b c w))
     = (percentage w, text w,
        set_ledger (ledger (host (catch (send a b c w)))) (host w)).
Proof.
  unfold send, durable. destruct (Ledger.transfer _ _ _ _ _); cbn; [|auto].
  split; [reflexivity|]. destruct w as [p t c0 []]. reflexivity.
Qed.

(** The store after the [switch]: written by method code 3 only. *)
Lemma dispatch_kvstore w :
  kvstore (host (catch (dispatch w)))
  = if slot 0 (message (currentTx w)) =? SET_MAP_VALUE
    then <[(MAP_KEY_EXAMPLE, slot 1 (message (currentTx w)))
           := slot 2 (message (currentTx w))]> (kvstore (host w))
    else kvstore (host w).
Proof.
  destruct (dispatch_cases w)
    as [[Hc ->] | [[Hc ->] | [[Hc ->] | [[Hc ->] | (H1 & H2 & H3 & H4 & ->)]]]].
  - rewrite Hc. cbn. rewrite forwardPercentage_unfold.
    destruct (percentage w =? 0); [reflexivity|].
    apply send_ledger.
  - rewrite Hc. cbn. rewrite updatePercentage_unfold.
    destruct (negb _); reflexivity.
  - rewrite Hc. reflexivity.
  - rewrite Hc. cbn. rewrite pullFunds_unfold.
    destruct (negb _); [reflexivity|]. apply send_ledger.
  - apply Z.eqb_neq in H3. rewrite H3. reflexivity.
Qed.

(** The ledger after the [switch]: touched by method codes 1 and 4 only. *)
Lemma dispatch_ledger w :
  slot 0 (message (currentTx w)) <> FORWARD_PERCENTAGE ->
  slot 0 (message (currentTx w)) <> PULL_FUNDS ->
  ledger (host (catch (dispatch w))) = ledger (host w).
Proof.
  intros N1 N4.
  destruct (dispatch_cases w)
    as [[Hc ->] | [[Hc ->] | [[Hc ->] | [[Hc ->] | (H1 & H2 & H3 & H4 & ->)]]]];
    try contradiction.
  - rewrite updatePercentage_unfold. destruct (negb _); reflexivity.
  - reflexivity.
  - reflexivity.
Qed.

Lemma loop_body_dispatch w :
  exists c, loop_body w = dispatch (set_currentTx c w)
            /\ currentTx (catch (loop_body w)) = c
            /\ txId c = txId (currentTx w).
Proof.
  destruct (readTx_done w) as (c & Hr & Hc). exists c.
  assert (E : loop_body w = dispatch (set_currentTx c w)).
  { unfold loop_body, mbind, M_bind, bind. rewrite Hr. reflexivity. }
  split; [exact E|]. split; [|exact Hc].
  rewrite E. destruct (dispatch_effect (set_currentTx c w)) as ((E1 & _) & _).
  exact E1.
Qed.

Lemma getNextTx_frame w :
  percentage (getNextTx w).2 = percentage w
  /\ text (getNextTx w).2 = text w
  /\ currentTx (getNextTx w).2 = currentTx w
  /\ ledger (host (getNextTx w).2) = ledger (host w)
  /\ kvstore (host (getNextTx w).2) = kvstore (host w)
  /\ queue (host (getNextTx w).2) = queue (host w)
  /\ creator (host (getNextTx w).2) = creator (host w)
  /\ self (host (getNextTx w).2) = self (host w).
Proof.
  unfold getNextTx, Queue.nextTransaction.
  destruct (queue (host w) !! cursor (host w)); repeat split.
Qed.

(** What every turn keeps, the whole loop keeps. *)
Lemma main_loop_invariant (I : World -> Prop) :
  (forall w, I w -> I (set_txId (getNextTx w).1 (getNextTx w).2)) ->
  (forall w, I w -> I (catch (loop_body w))) ->
  forall fuel w w', main_loop fuel w = Some w' -> I w -> I w'.
Proof.
  intros Hn Hb. induction fuel as [|n IH]; intros w w' H HI; [discriminate|].
  cbn [main_loop] in H. specialize (Hn w HI).
  destruct (getNextTx w) as [i w1]. cbn in Hn.
  destruct (negb (i =? 0)).
  - eapply IH; eauto.
  - injection H as <-. exact Hn.
Qed.

(** X1.  The loop never writes the global [text]: whatever the block and
    however the run ends, [text] is what it was. *)
Theorem main_never_writes_text (fuel : nat) (w w' : World) :
  main_loop fuel w = Some w' ->
  text w' = text w.
Proof.
  intros H.
  refine (main_loop_invariant (fun x => text x = text w) _ _ fuel w w' H
            eq_refl).
  - intros x Hx. cbn. rewrite <- Hx.
    exact (proj1 (proj2 (getNextTx_frame x))).
  - intros x Hx. rewrite <- Hx. exact (proj1 (loop_body_effect x)).
Qed.

Lemma main_never_writes_text_witness :
  exists w', main (world0 20 [tx 11 5 1000 [1; 77]; tx 12 9 0 [3; 8; 9]])
             = Some w' /\ text w' = 0.
Proof.
  destruct (main_total (world0 20 [tx 11 5 1000 [1; 77]; tx 12 9 0 [3; 8; 9]]))
    as [w' H].
  exists w'. split; [exact H|].
  exact (main_never_writes_text _ _ w' H).
Defined.

Lemma loop_body_kvstore w :
  kvstore (host (catch (loop_body w)))
  = if slot 0 (message (currentTx (catch (loop_body w)))) =? SET_MAP_VALUE
    then <[(MAP_KEY_EXAMPLE,
            slot 1 (message (currentTx (catch (loop_body w)))))
           := slot 2 (message (currentTx (catch (loop_body w))))]>
           (kvstore (host w))
    else kvstore (host w).
Proof.
  destruct (loop_body_dispatch w) as (c & E & Ec & _).
  rewrite Ec. rewrite E. apply (dispatch_kvstore (set_currentTx c w)).
Qed.

Lemma loop_body_ledger w :
  slot 0 (message (currentTx (catch (loop_body w)))) <> FORWARD_PERCENTAGE ->
  slot 0 (message (currentTx (catch (loop_body w)))) <> PULL_FUNDS ->
  ledger (host (catch (loop_body w))) = ledger (host w).
Proof.
  destruct (loop_body_dispatch w) as (c & E & Ec & _).
  rewrite Ec. rewrite E. apply (dispatch_ledger (set_currentTx c w)).
Qed.

(** X2.  The loop writes the map under primary key [MAP_KEY_EXAMPLE] only:
    every entry with another primary key is, after any block, what it was
    before. *)
Theorem main_writes_example_map_only (fuel : nat) (w w' : World) (k1 k2 : Z) :
  main_loop fuel w = Some w' ->
  k1 <> MAP_KEY_EXAMPLE ->
  kvstore (host w') !! (k1, k2) = kvstore (host w) !! (k1, k2)
  /\ KVStore.get (kvstore (host w')) k1 k2
     = KVStore.get (kvstore (host w)) k1 k2.
Proof.
  intros H Hk.
  assert (E : kvstore (host w') !! (k1, k2) = kvstore (host w) !! (k1, k2)).
  { refine (main_loop_invariant
              (fun x => kvstore (host x) !! (k1, k2)
                        = kvstore (host w) !! (k1, k2)) _ _ fuel w w' H
              eq_refl).
    - intros x Hx. cbn. rewrite <- Hx.
      destruct (getNextTx_frame x) as (_ & _ & _ & _ & -> & _). reflexivity.
    - intros x Hx. rewrite <- Hx, loop_body_kvstore.
      destruct (_ =? SET_MAP_VALUE); [|reflexivity].
      apply lookup_insert_ne. congruence. }
  split; [exact E|]. unfold KVStore.get. rewrite E. reflexivity.
Qed.

Lemma main_writes_example_map_only_witness :
  exists w', main (world0 20 [tx 11 5 1000 [1; 77]; tx 12 9 0 [3; 8; 9]])
             = Some w' /\ KVStore.get (kvstore (host w')) 5 8 = 0.
Proof.
  destruct (main_total (world0 20 [tx 11 5 1000 [1; 77]; tx 12 9 0 [3; 8; 9]]))
    as [w' H].
  exists w'. split; [exact H|].
  refine (proj2 (main_writes_example_map_only _ _ w' 5 8 H _)).
  vm_compute. discriminate.
Defined.

(** X7.  What a turn can change depends on its method code alone: the map
    changes only under code 3 and the ledger only under codes 1 and 4.  A
    sender other than the creator never changes [percentage], whatever the
    code, and moves funds only through code 1. *)
Theorem turn_frame_by_method (w : World) :
  (slot 0 (message (currentTx (catch (loop_body w)))) <> SET_MAP_VALUE ->
   kvstore (host (catch (loop_body w))) = kvstore (host w))
  /\ (slot 0 (message (currentTx (catch (loop_body w)))) <> FORWARD_PERCENTAGE ->
      slot 0 (message (currentTx (catch (loop_body w)))) <> PULL_FUNDS ->
      ledger (host (catch (loop_body w))) = ledger (host w))
  /\ (sender (currentTx (catch (loop_body w))) <> creator (host w) ->
      percentage (catch (loop_body w)) = percentage w
      /\ (slot 0 (message (currentTx (catch (loop_body w))))
            <> FORWARD_PERCENTAGE ->
          ledger (host (catch (loop_body w))) = ledger (host w))).
Proof.
  split; [|split].
  - intros N. rewrite loop_body_kvstore. apply Z.eqb_neq in N. rewrite N.
    reflexivity.
  - apply loop_body_ledger.
  - intros Hs. destruct (loop_body_dispatch w) as (c & E & Ec & _).
    rewrite Ec in *. rewrite E.
    destruct (dispatch_effect (set_currentTx c w)) as (_ & Hp).
    split.
    + destruct Hp as [Hp | (_ & Hc & _)]; [exact Hp | contradiction].
    + intros N1.
      destruct (Z.eq_dec (slot 0 (message c)) PULL_FUNDS) as [H4|H4].
      * rewrite (dispatch_pull (set_currentTx c w)) by exact H4.
        rewrite pullFunds_unauthorised by exact Hs. reflexivity.
      * apply (dispatch_ledger (set_currentTx c w)); assumption.
Qed.

(** ** A block as a replay of its transactions *)

Lemma process_kvstore w t :
  kvstore (host (process w t)) = replay_map (kvstore (host w)) t.
Proof.
  unfold process. rewrite dispatch_kvstore. reflexivity.
Qed.

Lemma process_replay_percentage w t :
  percentage (process w t)
  = replay_percentage (creator (host w)) (percentage w) t.
Proof.
  unfold process, replay_percentage.
  set (W := received t (set_txId (tx_id t) (advance w))).
  assert (HW : slot 0 (message (currentTx W)) = slot 0 (tx_message t)
               /\ slot 1 (message (currentTx W)) = slot 1 (tx_message t)
               /\ sender (currentTx W) = tx_sender t
               /\ creator (host W) = creator (host w)
               /\ percentage W = percentage w) by (repeat split).
  destruct HW as (H0 & H1 & Hs & Hc & Hp).
  destruct (Z.eqb_spec (slot 0 (tx_message t)) UPDATE_PERCENTAGE) as [E|N].
  - rewrite (dispatch_update W) by congruence.
    rewrite updatePercentage_unfold, Hs, Hc, H1.
    destruct (tx_sender t =? creator (host w)); cbn; [reflexivity | exact Hp].
  - cbn [andb]. rewrite <- Hp.
    destruct (dispatch_effect W) as (_ & [E | (E & _)]); [exact E|].
    congruence.
Qed.

Lemma foldl_process_kvstore (ts : list Transaction) : forall w,
  kvstore (host (foldl process w ts))
  = foldl replay_map (kvstore (host w)) ts.
Proof.
  induction ts as [|t ts IH]; intros w; [reflexivity|].
  cbn [foldl]. rewrite IH, process_kvstore. reflexivity.
Qed.

Lemma foldl_process_percentage (ts : list Transaction) : forall w,
  percentage (foldl process w ts)
  = foldl (replay_percentage (creator (host w))) (percentage w) ts.
Proof.
  induction ts as [|t ts IH]; intros w; [reflexivity|].
  cbn [foldl]. rewrite IH, process_replay_percentage.
  destruct (process_block w t) as (_ & _ & -> & _). reflexivity.
Qed.

Lemma main_is_fold w :
  wf_queue (queue (host w)) ->
  main w = Some (set_txId 0 (foldl process w (Queue.pending (host w)))).
Proof. intros Hwf. unfold main. apply main_loop_fold; auto. Qed.

Lemma replay_percentage_update c p t :
  slot 0 (tx_message t) = UPDATE_PERCENTAGE -> tx_sender t = c ->
  replay_percentage c p t = Z.max 0 (Z.min 100 (slot 1 (tx_message t))).
Proof.
  intros H0 Hs. unfold replay_percentage. rewrite H0, Hs, !Z.eqb_refl.
  reflexivity.
Qed.

Lemma replay_percentage_other c p t :
  ~ (slot 0 (tx_message t) = UPDATE_PERCENTAGE /\ tx_sender t = c) ->
  replay_percentage c p t = p.
Proof.
  intros N. unfold replay_percentage.
  destruct (Z.eqb_spec (slot 0 (tx_message t)) UPDATE_PERCENTAGE);
    destruct (Z.eqb_spec (tx_sender t) c); cbn; try reflexivity.
  exfalso. auto.
Qed.

Lemma replay_percentage_others c (ts : list Transaction) : forall p,
  Forall (fun t => ~ (slot 0 (tx_message t) = UPDATE_PERCENTAGE
                      /\ tx_sender t = c)) ts ->
  foldl (replay_percentage c) p ts = p.
Proof.
  induction ts as [|t ts IH]; intros p H; [reflexivity|].
  apply Forall_cons in H as [Ht Hts]. cbn [foldl].
  rewrite replay_percentage_other by exact Ht. apply IH, Hts.
Qed.

Lemma replay_percentage_keeps_range c p t :
  0 <= p <= 100 -> 0 <= replay_percentage c p t <= 100.
Proof.
  intros H. unfold replay_percentage. destruct (_ && _); lia.
Qed.

Lemma replay_percentage_range c (ts : list Transaction) : forall p,
  (0 <= p <= 100
   \/ Exists (fun t => slot 0 (tx_message t) = UPDATE_PERCENTAGE
                       /\ tx_sender t = c) ts) ->
  0 <= foldl (replay_percentage c) p ts <= 100.
Proof.
  induction ts as [|t ts IH]; intros p H.
  - destruct H as [H|H]; [exact H | inversion H].
  - cbn [foldl]. apply IH. destruct H as [H|H].
    + left. apply replay_percentage_keeps_range, H.
    + apply Exists_cons in H as [[H0 Hs]|H]; [left | right; exact H].
      rewrite replay_percentage_update by assumption. lia.
Qed.

(** X3.  On a block with distinct non-zero ids the map left by [main] is
    the map before it with the writes of the code 3 transactions applied in
    queue order; senders, amounts, the other transactions and faults have no
    part in it. *)
Theorem block_map_is_replay (w : World) :
  wf_queue (queue (host w)) ->
  exists w', main w = Some w'
    /\ kvstore (host w')
       = foldl replay_map (kvstore (host w)) (Queue.pending (host w)).
Proof.
  intros Hwf. eexists. split; [apply main_is_fold, Hwf|].
  cbn. apply foldl_process_kvstore.
Qed.

Lemma block_map_is_replay_witness :
  exists w', main (world0 20 [tx 11 9 0 [3; 8; 9]; tx 12 5 0 [3; 8; 10]])
             = Some w'
    /\ kvstore (host w')
       = foldl replay_map ∅ [tx 11 9 0 [3; 8; 9]; tx 12 5 0 [3; 8; 10]].
Proof.
  apply (block_map_is_replay
           (world0 20 [tx 11 9 0 [3; 8; 9]; tx 12 5 0 [3; 8; 10]])).
  split.
  - apply (bool_decide_unpack _). vm_compute. exact I.
  - repeat constructor; vm_compute; discriminate.
Defined.

(** X4.  On a block with distinct non-zero ids the percentage left by
    [main] is obtained by replaying the creator's code 2 transactions in
    queue order; in particular the last of them decides it. *)
Theorem block_percentage_is_replay (w : World) :
  wf_queue (queue (host w)) ->
  exists w', main w = Some w'
    /\ percentage w'
       = foldl (replay_percentage (creator (host w))) (percentage w)
               (Queue.pending (host w))
    /\ (forall ts t ts',
          Queue.pending (host w) = ts ++ t :: ts' ->
          creator_update (host w) t ->
          Forall (fun t' => ~ creator_update (host w) t') ts' ->
          percentage w' = Z.max 0 (Z.min 100 (slot 1 (tx_message t)))).
Proof.
  intros Hwf. eexists. split; [apply main_is_fold, Hwf|].
  assert (E : percentage (set_txId 0 (foldl process w (Queue.pending (host w))))
              = foldl (replay_percentage (creator (host w))) (percentage w)
                      (Queue.pending (host w))).
  { cbn. apply foldl_process_percentage. }
  split; [exact E|].
  intros ts t ts' Hp [H0 Hs] Hts'. rewrite E, Hp, foldl_app. cbn [foldl].
  rewrite replay_percentage_others by exact Hts'.
  apply replay_percentage_update; assumption.
Qed.

Lemma block_percentage_is_replay_witness :
  exists w', main (world0 20 [tx 11 1000 0 [2; 150]; tx 12 5 0 [2; 7];
                              tx 13 1000 0 [2; 42]; tx 14 5 0 [4; 0]])
             = Some w'
    /\ percentage w' = 42.
Proof.
  destruct (block_percentage_is_replay
              (world0 20 [tx 11 1000 0 [2; 150]; tx 12 5 0 [2; 7];
                          tx 13 1000 0 [2; 42]; tx 14 5 0 [4; 0]]))
    as (w' & Hm & _ & Hlast).
  - split.
    + apply (bool_decide_unpack _). vm_compute. exact I.
    + repeat constructor; vm_compute; discriminate.
  - exists w'. split; [exact Hm|].
    apply (Hlast [tx 11 1000 0 [2; 150]; tx 12 5 0 [2; 7]]
                 (tx 13 1000 0 [2; 42]) [tx 14 5 0 [4; 0]]).
    + reflexivity.
    + split; reflexivity.
    + repeat constructor. intros [H _]. vm_compute in H. discriminate.
Defined.

(** X5.  Whatever [percentage] was before (the testbed may deploy any
    value), once a block holding a code 2 transaction of the creator has
    been processed it lies in [0,100]. *)
Theorem creator_update_establishes_range (w : World) :
  wf_queue (queue (host w)) ->
  Exists (creator_update (host w)) (Queue.pending (host w)) ->
  exists w', main w = Some w' /\ 0 <= percentage w' <= 100.
Proof.
  intros Hwf Hex. eexists. split; [apply main_is_fold, Hwf|].
  cbn. rewrite foldl_process_percentage.
  apply replay_percentage_range. right. exact Hex.
Qed.

Lemma creator_update_establishes_range_witness :
  exists w', main (world0 150 [tx 11 5 0 [3; 8; 9]; tx 12 1000 0 [2; 250]])
             = Some w'
    /\ 0 <= percentage w' <= 100.
Proof.
  apply (creator_update_establishes_range
           (world0 150 [tx 11 5 0 [3; 8; 9]; tx 12 1000 0 [2; 250]])).
  - split.
    + apply (bool_decide_unpack _). vm_compute. exact I.
    + repeat constructor; vm_compute; discriminate.
  - apply Exists_cons_tl, Exists_cons_hd. split; reflexivity.
Defined.

(** ** Faults *)

Lemma send_abort a b c w f w' :
  send a b c w = Abort f w' ->
  w' = w /\ Ledger.transfer (ledger (host w)) (self (host w)) c b a = inl f.
Proof.
  unfold send. destruct (Ledger.transfer _ _ _ _ _); [|discriminate].
  intros [= -> ->]. auto.
Qed.

Lemma dispatch_abort w f w' :
  dispatch w = Abort f w' ->
  w' = w
  /\ ((slot 0 (message (currentTx w)) = FORWARD_PERCENTAGE
       /\ percentage w <> 0)
      \/ (slot 0 (message (currentTx w)) = PULL_FUNDS
          /\ sender (currentTx w) = creator (host w))).
Proof.
  destruct (dispatch_cases w)
    as [[Hc ->] | [[Hc ->] | [[Hc ->] | [[Hc ->] | (H1 & H2 & H3 & H4 & ->)]]]].
  - rewrite forwardPercentage_unfold.
    destruct (Z.eqb_spec (percentage w) 0); [discriminate|].
    intros H. apply send_abort in H as [-> _]. auto.
  - rewrite updatePercentage_unfold. destruct (negb _); discriminate.
  - discriminate.
  - rewrite pullFunds_unfold.
    destruct (Z.eqb_spec (sender (currentTx w)) (creator (host w)));
      [|discriminate].
    cbn. intros H. apply send_abort in H as [-> _]. auto.
  - discriminate.
Qed.

(** X6.  A turn that faults has changed nothing but [currentTx], and it was
    a ForwardPercentage turn with a non-zero percentage or a PullFunds turn
    of the creator: UpdatePercentage, SetMapValue, unknown codes and
    unauthorised calls never fault. *)
Theorem turn_fault (w w' : World) (f : Fault) :
  loop_body w = Abort f w' ->
  durable w' = durable w
  /\ txId (currentTx w') = txId (currentTx w)
  /\ ((slot 0 (message (currentTx w')) = FORWARD_PERCENTAGE
       /\ percentage w <> 0)
      \/ (slot 0 (message (currentTx w')) = PULL_FUNDS
          /\ sender (currentTx w') = creator (host w))).
Proof.
  destruct (loop_body_dispatch w) as (c & E & _ & Hc).
  rewrite E. intros H. apply dispatch_abort in H as [-> H].
  split; [reflexivity|]. split; [exact Hc | exact H].
Qed.

Lemma turn_fault_witness :
  loop_body (at_first 100 [tx 11 5 1000 [1; 77]])
  = Abort InsufficientFunds
          (received (tx 11 5 1000 [1; 77])
                    (at_first 100 [tx 11 5 1000 [1; 77]]))
  /\ durable (received (tx 11 5 1000 [1; 77])
                       (at_first 100 [tx 11 5 1000 [1; 77]]))
     = durable (at_first 100 [tx 11 5 1000 [1; 77]]).
Proof.
  assert (H : loop_body (at_first 100 [tx 11 5 1000 [1; 77]])
              = Abort InsufficientFunds
                  (received (tx 11 5 1000 [1; 77])
                            (at_first 100 [tx 11 5 1000 [1; 77]])))
    by reflexivity.
  split; [exact H|]. exact (proj1 (turn_fault _ _ _ H)).
Defined.

(** ** The forwarded amount *)

Lemma forwardedAmount_exact a p :
  0 <= a -> 0 <= p <= 100 -> a * p <= Long.max_long ->
  forwardedAmount a p = a * p / 100.
Proof.
  intros Ha Hp Hm.
  assert (Hr : Long.in_range (a * p)).
  { unfold Long.in_range, Long.min_long, Long.max_long in *. nia. }
  unfold forwardedAmount, Long.mul.
  rewrite (wrap_in_range _ Hr), div_100_in_range by exact Hr.
  apply Z.quot_div_nonneg; nia.
Qed.

(** X8.  While the product fits in a long, the forwarded amount lies between
    0 and the attached amount, is the whole amount at 100 percent, is 0 when
    amount times percentage is below 100, and grows with the percentage. *)
Theorem forwarded_amount_bounds (a p : Z) :
  0 <= a -> 0 <= p <= 100 -> a * p <= Long.max_long ->
  0 <= forwardedAmount a p <= a
  /\ (p = 100 -> forwardedAmount a p = a)
  /\ (a * p < 100 -> forwardedAmount a p = 0)
  /\ (forall q, p <= q <= 100 -> a * q <= Long.max_long ->
        forwardedAmount a p <= forwardedAmount a q).
Proof.
  intros Ha Hp Hm. rewrite (forwardedAmount_exact a p Ha Hp Hm).
  split; [|split; [|split]].
  - split.
    + apply Z.div_pos; nia.
    + apply Z.div_le_upper_bound; nia.
  - intros ->. apply Z.div_mul. lia.
  - intros Hs. apply Z.div_small. nia.
  - intros q Hq Hmq. rewrite (forwardedAmount_exact a q) by (auto; lia).
    apply Z.div_le_mono; nia.
Qed.

Lemma forwarded_amount_bounds_witness :
  0 <= forwardedAmount 1000 20 <= 1000
  /\ forwardedAmount 1000 100 = 1000
  /\ forwardedAmount 4 20 = 0
  /\ forwardedAmount 1000 20 <= forwardedAmount 1000 21.
Proof.
  assert (B : forall a p, 0 <= a <= 1000 -> 0 <= p <= 100 ->
                          a * p <= Long.max_long).
  { intros a p Ha Hp. unfold Long.max_long. nia. }
  split; [|split; [|split]].
  - refine (proj1 (forwarded_amount_bounds 1000 20 _ _ _)); [lia|lia|].
    apply B; lia.
  - refine (proj1 (proj2 (forwarded_amount_bounds 1000 100 _ _ _)) eq_refl);
      [lia|lia|]. apply B; lia.
  - refine (proj1 (proj2 (proj2 (forwarded_amount_bounds 4 20 _ _ _))) _);
      [lia|lia| |lia]. apply B; lia.
  - refine (proj2 (proj2 (proj2 (forwarded_amount_bounds 1000 20 _ _ _)))
              21 _ _); [lia|lia| |lia|]; apply B; lia.
Defined.

(** X9.  [forwardPercentage] returns without sending exactly when the
    stored percentage is 0.  Otherwise it calls [sendAmount] once, with the
    wrapped product of the attached amount and the percentage divided by
    100, a value that is at most 92233720368547758 in absolute value
    whatever the amount and the percentage. *)
Theorem forwarded_amount_never_exceeds (a p : Z) (r : Z) (w : World) :
  -92233720368547758 <= forwardedAmount a p <= 92233720368547758
  /\ (percentage w = 0 -> forwardPercentage r w = Done tt w)
  /\ (percentage w <> 0 ->
      forwardPercentage r w
      = sendAmount
          (forwardedAmount
             (from_option tx_amount 0
                (Queue.lookup (host w) (txId (currentTx w))))
             (percentage w)) r w
      /\ -92233720368547758
         <= forwardedAmount
              (from_option tx_amount 0
                 (Queue.lookup (host w) (txId (currentTx w))))
              (percentage w)
         <= 92233720368547758).
Proof.
  assert (B : forall a p,
            -92233720368547758 <= forwardedAmount a p <= 92233720368547758).
  { clear. intros a p. unfold forwardedAmount, Long.mul.
    pose proof (wrap_range (a * p)) as Hr.
    rewrite div_100_in_range by exact Hr.
    unfold Long.in_range, Long.min_long, Long.max_long in Hr.
    pose proof (Z.quot_le_mono (Long.wrap (a * p)) (2 ^ 63 - 1) 100).
    pose proof (Z.quot_le_mono (- 2 ^ 63) (Long.wrap (a * p)) 100).
    change ((2 ^ 63 - 1) ÷ 100) with 92233720368547758 in *.
    change ((- 2 ^ 63) ÷ 100) with (-92233720368547758) in *.
    lia. }
  split; [apply B|]. rewrite forwardPercentage_unfold. split.
  - intros ->. reflexivity.
  - intros Hp. apply Z.eqb_neq in Hp. rewrite Hp. split; [reflexivity|].
    apply B.
Qed.

Lemma forwarded_amount_never_exceeds_witness :
  forwardPercentage 77 (at_first 0 [tx 11 5 1000 [1; 77]])
  = Done tt (at_first 0 [tx 11 5 1000 [1; 77]])
  /\ forwardPercentage 77 world_large
     = sendAmount (-92233720368547757) 77 world_large.
Proof.
  split.
  - exact (proj1 (proj2 (forwarded_amount_never_exceeds
                           0 0 77 (at_first 0 [tx 11 5 1000 [1; 77]])))
                 eq_refl).
  - refine (proj1 (proj2 (proj2 (forwarded_amount_never_exceeds
                                   0 0 77 world_large)) _)).
    vm_compute. discriminate.
Defined.

(** ** Where the loop stops *)

(** X10.  A transaction with id 0 under the cursor ends the block: it is
    taken off the queue but not dispatched, nothing but the cursor and
    [currentTx.txId] changes, and the transactions behind it stay
    pending. *)
Theorem zero_id_ends_block (w : World) (t : Transaction) :
  queue (host w) !! cursor (host w) = Some t ->
  tx_id t = 0 ->
  main w = Some (set_txId 0 (advance w))
  /\ (forall n, main_loop (S n) w = Some (set_txId 0 (advance w)))
  /\ durable (set_txId 0 (advance w))
     = (percentage w, text w, set_cursor (S (cursor (host w))) (host w))
  /\ Queue.pending (host (set_txId 0 (advance w)))
     = drop 1 (Queue.pending (host w)).
Proof.
  intros Ht Hz.
  assert (H : forall n, main_loop (S n) w = Some (set_txId 0 (advance w))).
  { intros n. cbn [main_loop]. rewrite (getNextTx_some w t Ht), Hz.
    reflexivity. }
  split; [apply H|]. split; [exact H|]. split; [reflexivity|].
  unfold Queue.pending. cbn. rewrite drop_drop. f_equal. lia.
Qed.

Lemma zero_id_ends_block_witness :
  main (world0 20 [tx 0 1000 0 [2; 50]; tx 12 1000 0 [2; 60]])
  = Some (set_txId 0
            (advance (world0 20 [tx 0 1000 0 [2; 50]; tx 12 1000 0 [2; 60]]))).
Proof.
  exact (proj1 (zero_id_ends_block
                  (world0 20 [tx 0 1000 0 [2; 50]; tx 12 1000 0 [2; 60]])
                  (tx 0 1000 0 [2; 50]) eq_refl eq_refl)).
Defined.

(** X11.  With nothing pending [main] only sets [currentTx.txId] to 0.
    Hence running [main] again after a block with distinct non-zero ids has
    been processed changes nothing. *)
Theorem exhausted_block_is_left_alone (w : World) :
  (Queue.pending (host w) = [] -> main w = Some (set_txId 0 w))
  /\ (wf_queue (queue (host w)) ->
      forall w', main w = Some w' -> main w' = Some w').
Proof.
  assert (E : forall x, Queue.pending (host x) = [] ->
                        main x = Some (set_txId 0 x)).
  { intros x Hp. unfold main. rewrite Hp. cbn [length main_loop].
    rewrite (getNextTx_none x) by (apply pending_nil, Hp). reflexivity. }
  split; [apply E|].
  intros Hwf w' Hm. rewrite (main_is_fold w Hwf) in Hm. injection Hm as <-.
  rewrite E; [reflexivity|].
  destruct (foldl_process_block (Queue.pending (host w)) w) as (E1 & E2 & _).
  unfold Queue.pending at 1. cbn. rewrite E1, E2.
  apply drop_ge. unfold Queue.pending. rewrite length_drop. lia.
Qed.

Lemma main_returns_from (k : nat) : forall w,
  length (Queue.pending (host w)) = k ->
  exists w', main_loop (S k) w = Some w'
    /\ txId (currentTx w') = 0
    /\ queue (host w') = queue (host w)
    /\ (cursor (host w) <= cursor (host w'))%nat
    /\ (cursor (host w')
        <= Nat.max (cursor (host w)) (length (queue (host w))))%nat.
Proof.
  induction k as [|k IH]; intros w Hk.
  - assert (Hp : Queue.pending (host w) = []).
    { destruct (Queue.pending (host w)); [reflexivity | discriminate]. }
    cbn [main_loop]. rewrite (getNextTx_none w) by (apply pending_nil, Hp).
    eexists. split; [reflexivity|]. cbn. repeat split; lia.
  - destruct (Queue.pending (host w)) as [|t ts] eqn:Hp; [discriminate|].
    destruct (pending_cons _ _ _ Hp) as [Ht Hd].
    assert (Hlt : (cursor (host w) < length (queue (host w)))%nat).
    { apply lookup_lt_Some in Ht. exact Ht. }
    change (main_loop (S (S k)) w) with
      (let '(i, w1) := getNextTx w in
       let w2 := set_txId i w1 in
       if negb (i =? 0) then main_loop (S k) (catch (loop_body w2))
       else Some w2).
    rewrite (getNextTx_some w t Ht). cbv zeta.
    destruct (Z.eqb_spec (tx_id t) 0) as [Hz|Hz]; cbn [negb].
    + eexists. split; [reflexivity|]. cbn. repeat split; [exact Hz|lia|lia].
    + destruct (loop_body_effect (set_txId (tx_id t) (advance w)))
        as (_ & _ & E3 & E4 & _).
      cbn in E3, E4.
      destruct (IH (catch (loop_body (set_txId (tx_id t) (advance w)))))
        as (w' & Hm & H0 & Hq & Hc1 & Hc2).
      { unfold Queue.pending. rewrite E3, E4, Hd. cbn in Hk. lia. }
      exists w'. split; [exact Hm|]. rewrite Hq, E3. rewrite E3, E4 in *.
      repeat split; [exact H0 | lia | lia].
Qed.

(** X15.  [main] returns on every block, also one with repeated or zero
    ids; it leaves with [currentTx.txId] 0, the same queue, and a cursor
    that only moved forward and not past the end of the block. *)
Theorem main_returns (w : World) :
  exists w', main w = Some w'
    /\ txId (currentTx w') = 0
    /\ queue (host w') = queue (host w)
    /\ (cursor (host w) <= cursor (host w'))%nat
    /\ (cursor (host w')
        <= Nat.max (cursor (host w)) (length (queue (host w))))%nat.
Proof. apply main_returns_from. reflexivity. Qed.

(** ** Handlers in sequence *)

Lemma forward_fits a p :
  0 <= a <= 92233720368547758 -> 0 <= p <= 100 -> a * p <= Long.max_long.
Proof.
  intros Ha Hp.
  transitivity (92233720368547758 * 100);
    [apply Z.mul_le_mono_nonneg; lia | vm_compute; discriminate].
Qed.

(** X12.  After a code 2 transaction of the creator with value [v], a
    ForwardPercentage transaction attaching at most 92233720368547758 sends
    the floor of amount times [v] clamped into [0,100] over 100, or
    nothing when the clamped value is 0. *)
Theorem update_then_forward (w : World) (tu tf : Transaction) :
  creator_update (host w) tu ->
  slot 0 (tx_message tf) = FORWARD_PERCENTAGE ->
  Queue.lookup (host w) (tx_id tf) = Some tf ->
  0 <= tx_amount tf <= 92233720368547758 ->
  process (process w tu) tf
  = catch
      (if Z.max 0 (Z.min 100 (slot 1 (tx_message tu))) =? 0
       then Done tt (received tf (set_txId (tx_id tf)
                                    (advance (process w tu))))
       else sendAmount
              (tx_amount tf * Z.max 0 (Z.min 100 (slot 1 (tx_message tu)))
               / 100)
              (slot 1 (tx_message tf))
              (received tf (set_txId (tx_id tf) (advance (process w tu))))).
Proof.
  intros [Hu Hs] Hf Hl Ha.
  assert (Hp : percentage (process w tu)
               = Z.max 0 (Z.min 100 (slot 1 (tx_message tu)))).
  { rewrite process_replay_percentage.
    apply replay_percentage_update; assumption. }
  destruct (process_block w tu) as (Eq & _).
  unfold process at 1.
  set (W := received tf (set_txId (tx_id tf) (advance (process w tu)))).
  assert (HW : percentage W = percentage (process w tu)
               /\ Queue.lookup (host W) (txId (currentTx W))
                  = Queue.lookup (host (process w tu)) (tx_id tf)
               /\ slot 1 (message (currentTx W)) = slot 1 (tx_message tf))
    by (repeat split).
  destruct HW as (HWp & HWl & HW1).
  rewrite (dispatch_forward W) by exact Hf.
  rewrite forwardPercentage_unfold, HWp, HWl, HW1, Hp.
  unfold Queue.lookup. rewrite Eq. fold (Queue.lookup (host w) (tx_id tf)).
  rewrite Hl. cbn [from_option].
  rewrite forwardedAmount_exact; [reflexivity | lia | lia |].
  apply forward_fits; lia.
Qed.

Lemma update_then_forward_witness :
  Ledger.balanceOf
    (ledger (host (process
                     (process (world0 0 [tx 11 1000 0 [2; 150];
                                         tx 12 5 100 [1; 77]])
                              (tx 11 1000 0 [2; 150]))
                     (tx 12 5 100 [1; 77])))) 77 0 = 100.
Proof.
  rewrite (update_then_forward
             (world0 0 [tx 11 1000 0 [2; 150]; tx 12 5 100 [1; 77]])
             (tx 11 1000 0 [2; 150]) (tx 12 5 100 [1; 77])).
  - vm_compute. reflexivity.
  - split; reflexivity.
  - reflexivity.
  - reflexivity.
  - vm_compute. split; discriminate.
Defined.

Lemma process_pull w t :
  slot 0 (tx_message t) = PULL_FUNDS ->
  tx_sender t = creator (host w) ->
  process w t
  = catch (send (Ledger.balanceOf (ledger (host w)) (self (host w))
                                  (slot 1 (tx_message t)))
                (slot 1 (tx_message t)) (creator (host w))
                (received t (set_txId (tx_id t) (advance w)))).
Proof.
  intros Hc Hs. unfold process.
  rewrite (dispatch_pull (received t (set_txId (tx_id t) (advance w))))
    by exact Hc.
  rewrite pullFunds_unfold. cbn. rewrite Hs, Z.eqb_refl. reflexivity.
Qed.

(** X13.  A second PullFunds of the same asset right after a successful one
    moves nothing: the first leaves the contract's balance of the asset at
    0 and the second leaves every balance as the first left it. *)
Theorem pull_twice (w : World) (t1 t2 : Transaction) :
  slot 0 (tx_message t1) = PULL_FUNDS ->
  slot 0 (tx_message t2) = PULL_FUNDS ->
  tx_sender t1 = creator (host w) ->
  tx_sender t2 = creator (host w) ->
  slot 1 (tx_message t2) = slot 1 (tx_message t1) ->
  self (host w) <> creator (host w) ->
  Long.in_range
    (Ledger.balanceOf (ledger (host w)) (creator (host w))
                      (slot 1 (tx_message t1))
     + Ledger.balanceOf (ledger (host w)) (self (host w))
                        (slot 1 (tx_message t1))) ->
  Ledger.balanceOf (ledger (host (process w t1))) (self (host w))
                   (slot 1 (tx_message t1)) = 0
  /\ forall account assetId,
       Ledger.balanceOf (ledger (host (process (process w t1) t2)))
                        account assetId
       = Ledger.balanceOf (ledger (host (process w t1))) account assetId.
Proof.
  intros H1 H2 S1 S2 Ha Hne Hr.
  set (a := slot 1 (tx_message t1)) in *.
  destruct (transfer_all (ledger (host w)) (self (host w)) (creator (host w))
              a Hne Hr) as (l1 & T1 & B1 & C1 & F1).
  assert (L1 : ledger (host (process w t1)) = l1
               /\ self (host (process w t1)) = self (host w)
               /\ creator (host (process w t1)) = creator (host w)).
  { rewrite process_pull by assumption. fold a. unfold send. cbn.
    rewrite T1. repeat split. }
  destruct L1 as (L1 & Sf & Cr).
  rewrite L1. split; [exact B1|].
  assert (Hr2 : Long.in_range
                  (Ledger.balanceOf l1 (creator (host w)) a
                   + Ledger.balanceOf l1 (self (host w)) a)).
  { rewrite B1, C1. rewrite Z.add_0_r. exact Hr. }
  destruct (transfer_all l1 (self (host w)) (creator (host w)) a Hne Hr2)
    as (l2 & T2 & B2 & C2 & F2).
  assert (L2 : ledger (host (process (process w t1) t2)) = l2).
  { rewrite (process_pull (process w t1) t2) by congruence.
    rewrite Ha, L1, Sf, Cr. fold a.
    unfold send. cbn. rewrite ?L1, ?Sf, ?Cr, T2. reflexivity. }
  rewrite L2. intros account assetId.
  destruct (decide ((account, assetId) = (self (host w), a))) as [[= -> ->]|N1].
  { rewrite B1, B2. reflexivity. }
  destruct (decide ((account, assetId) = (creator (host w), a)))
    as [[= -> ->]|N2].
  { rewrite C2, B1. lia. }
  unfold Ledger.balanceOf. rewrite F2 by assumption. reflexivity.
Qed.

Lemma pull_twice_witness :
  Ledger.balanceOf
    (ledger (host (process (world0 20 []) (tx 11 1000 0 [4; 7])))) 2000 7 = 0
  /\ Ledger.balanceOf
       (ledger (host (process (process (world0 20 []) (tx 11 1000 0 [4; 7]))
                              (tx 12 1000 0 [4; 7])))) 1000 7
     = Ledger.balanceOf
         (ledger (host (process (world0 20 []) (tx 11 1000 0 [4; 7]))))
         1000 7.
Proof.
  destruct (pull_twice (world0 20 []) (tx 11 1000 0 [4; 7])
              (tx 12 1000 0 [4; 7]) eq_refl eq_refl eq_refl eq_refl eq_refl)
    as [H0 H].
  - vm_compute. discriminate.
  - vm_compute. split; discriminate.
  - split; [exact H0 | apply H].
Defined.

(** ** What the switch does not read *)

Lemma slot_insert_ne (i j : nat) (x : Z) (m : list Z) :
  i <> j -> slot j (<[i := x]> m) = slot j m.
Proof.
  intros H. unfold slot. rewrite list_lookup_insert_ne by exact H.
  reflexivity.
Qed.

Lemma send_durable a b c w m :
  durable (catch (send a b c (set_message m w)))
  = durable (catch (send a b c w)).
Proof.
  unfold send. cbn. destruct (Ledger.transfer _ _ _ _ _); reflexivity.
Qed.

(** X14.  The [switch] and the handlers never read [message[3]]: whatever
    is stored there, percentage, [text] and the host end up the same. *)
Theorem fourth_long_is_ignored (w : World) (x : Z) :
  durable (catch (dispatch
                    (set_message (<[3%nat := x]> (message (currentTx w))) w)))
  = durable (catch (dispatch w)).
Proof.
  set (m := <[3%nat := x]> (message (currentTx w))).
  assert (S0 : slot 0 m = slot 0 (message (currentTx w)))
    by (apply slot_insert_ne; lia).
  assert (S1 : slot 1 m = slot 1 (message (currentTx w)))
    by (apply slot_insert_ne; lia).
  assert (S2 : slot 2 m = slot 2 (message (currentTx w)))
    by (apply slot_insert_ne; lia).
  assert (HW : message (currentTx (set_message m w)) = m) by reflexivity.
  destruct (dispatch_cases w)
    as [[Hc E] | [[Hc E] | [[Hc E] | [[Hc E] | (H1 & H2 & H3 & H4 & E)]]]];
    rewrite E.
  - rewrite (dispatch_forward (set_message m w)) by (rewrite HW; congruence).
    rewrite !forwardPercentage_unfold, HW, S1. cbn.
    destruct (percentage w =? 0); [reflexivity|]. apply send_durable.
  - rewrite (dispatch_update (set_message m w)) by (rewrite HW; congruence).
    rewrite !updatePercentage_unfold, HW, S1. cbn.
    destruct (negb _); reflexivity.
  - rewrite (dispatch_set (set_message m w)) by (rewrite HW; congruence).
    rewrite HW, S1, S2. reflexivity.
  - rewrite (dispatch_pull (set_message m w)) by (rewrite HW; congruence).
    rewrite !pullFunds_unfold, HW, S1. cbn.
    destruct (negb _); [reflexivity|]. apply send_durable.
  - rewrite (dispatch_unknown (set_message m w))
      by (rewrite HW; congruence).
    reflexivity.
Qed.

(** ** Whose balances a turn can touch *)

Lemma transfer_frame (l l' : gmap (Z * Z) Z) (from to a amount : Z) :
  Ledger.transfer l from to a amount = inr l' ->
  forall k, k <> (from, a) -> k <> (to, a) -> l' !! k = l !! k.
Proof.
  unfold Ledger.transfer, Ledger.debit, Ledger.credit.
  destruct (_ <? amount); [discriminate|]. cbv zeta.
  destruct (_ || _); [discriminate|]. intros [= <-] k H1 H2.
  rewrite !lookup_insert_ne by congruence. reflexivity.
Qed.

Lemma send_frame amount a r w k :
  k <> (self (host w), a) -> k <> (r, a) ->
  ledger (host (catch (send amount a r w))) !! k = ledger (host w) !! k.
Proof.
  intros H1 H2. unfold send.
  destruct (Ledger.transfer _ _ _ _ _) as [f|l'] eqn:E; [reflexivity|].
  cbn. eapply transfer_frame; eauto.
Qed.

(** X16.  A turn changes no balance of an account other than the contract,
    the creator and the account named in message slot 1, and no balance of
    an asset other than the native one and the one named in slot 1. *)
Theorem turn_touches_named_balances_only (w : World) (account assetId : Z) :
  (account <> self (host w)
   /\ account <> creator (host w)
   /\ account <> slot 1 (message (currentTx (catch (loop_body w)))))
  \/ (assetId <> 0
      /\ assetId <> slot 1 (message (currentTx (catch (loop_body w))))) ->
  ledger (host (catch (loop_body w))) !! (account, assetId)
  = ledger (host w) !! (account, assetId).
Proof.
  destruct (loop_body_dispatch w) as (c & E & Ec & _).
  rewrite Ec, E. intros H.
  set (W := set_currentTx c w).
  destruct (dispatch_cases W)
    as [[Hc ->] | [[Hc ->] | [[Hc ->] | [[Hc ->] | (H1 & H2 & H3 & H4 & ->)]]]].
  - rewrite forwardPercentage_unfold.
    destruct (percentage W =? 0); [reflexivity|].
    unfold sendAmount. apply (send_frame _ 0 _ W); cbn; intros [= -> ->];
      destruct H as [(? & ? & ?) | (? & ?)]; congruence.
  - rewrite updatePercentage_unfold. destruct (negb _); reflexivity.
  - reflexivity.
  - rewrite pullFunds_unfold. destruct (negb _); [reflexivity|].
    apply (send_frame _ _ _ W); cbn; intros [= -> ->];
      destruct H as [(? & ? & ?) | (? & ?)]; congruence.
  - reflexivity.
Qed.

Lemma turn_touches_named_balances_only_witness :
  ledger (host (catch (loop_body (at_first 20 [tx 11 5 1000 [1; 77]]))))
    !! (2000, 7) = Some 30.
Proof.
  rewrite (turn_touches_named_balances_only
             (at_first 20 [tx 11 5 1000 [1; 77]]) 2000 7).
  - reflexivity.
  - right. split; vm_compute; discriminate.
Defined.

(** ** A percentage that was never clamped *)

Lemma forwardedAmount_exact_nonneg a p :
  0 <= a -> 0 <= p -> a * p <= Long.max_long ->
  forwardedAmount a p = a * p / 100.
Proof.
  intros Ha Hp Hm.
  assert (Hr : Long.in_range (a * p)).
  { unfold Long.in_range, Long.min_long, Long.max_long in *. nia. }
  unfold forwardedAmount, Long.mul.
  rewrite (wrap_in_range _ Hr), div_100_in_range by exact Hr.
  apply Z.quot_div_nonneg; nia.
Qed.

(** X17.  Only [updatePercentage] clamps.  The testbed's initial value is
    stored as given, and [forwardPercentage] does not check the range: with
    a percentage above 100 it sends the floor of amount times percentage
    over 100, which is at least the amount attached. *)
Theorem forward_with_unclamped_percentage
  (tb : Testbed) (h : Host) (w : World) (t : Transaction) (r : Z) :
  percentage (deploy (Some tb) h) = TESTBED_percentage tb
  /\ (Queue.lookup (host w) (txId (currentTx w)) = Some t ->
      100 < percentage w ->
      0 <= tx_amount t ->
      tx_amount t * percentage w <= Long.max_long ->
      forwardPercentage r w
      = sendAmount (tx_amount t * percentage w / 100) r w
      /\ tx_amount t <= tx_amount t * percentage w / 100).
Proof.
  split; [reflexivity|]. intros Hl Hp Ha Hm. split.
  - rewrite forwardPercentage_unfold, Hl. cbn [from_option].
    destruct (Z.eqb_spec (percentage w) 0); [lia|].
    rewrite forwardedAmount_exact_nonneg by (auto; lia). reflexivity.
  - apply Z.div_le_lower_bound; nia.
Qed.

Lemma forward_with_unclamped_percentage_witness :
  percentage (deploy (Some (mkTestbed 150 0)) (host0 [tx 11 5 100 [1; 77]]))
  = 150
  /\ forwardPercentage 77 (at_first 150 [tx 11 5 100 [1; 77]])
     = sendAmount 150 77 (at_first 150 [tx 11 5 100 [1; 77]]).
Proof.
  destruct (forward_with_unclamped_percentage (mkTestbed 150 0)
              (host0 [tx 11 5 100 [1; 77]])
              (at_first 150 [tx 11 5 100 [1; 77]]) (tx 11 5 100 [1; 77]) 77)
    as [Hd Hf].
  split; [exact Hd|].
  refine (proj1 (Hf eq_refl _ _ _)); vm_compute;
    first [reflexivity | discriminate].
Defined.
